(** * Trivia API (flaskr/__init__.py): a shallow embedding of the request
    handlers, the pagination helper and the quiz selector.

    Python values are an inductive type, exceptions are the [Raise] case of a
    result type, the storage is a record of row lists that the two writing
    handlers thread through a small state-and-error monad, the random
    generator is an oracle giving the raw value of each draw, and the quiz
    loop takes fuel. *)

From Stdlib Require Import ZArith List String Ascii Bool Lia DecimalString.
From Stdlib Require Import Sorted Permutation.
Import ListNotations.
Open Scope Z_scope.
Set Warnings "-register-all".

(** ** Python values *)

(** Keys of the dictionaries of this program: integers (the category map) and
    strings (JSON objects, response bodies). *)
Inductive key : Type :=
| KInt (n : Z)
| KStr (s : string).

(** The values that travel through the handlers: what [request.get_json()]
    yields and what is handed to [jsonify].  Numbers are the integers, a
    string is a sequence of one-byte characters, and a dictionary keeps its
    insertion order, as Python's does. *)
Inductive value : Type :=
| VNone
| VBool (b : bool)
| VInt (n : Z)
| VStr (s : string)
| VList (l : list value)
| VTuple (l : list value)
| VDict (d : list (key * value)).

Definition key_eqb (a b : key) : bool :=
  match a, b with
  | KInt m, KInt n => m =? n
  | KStr s, KStr t => String.eqb s t
  | _, _ => false
  end.

(** ** Exceptions and results *)

Inductive exn : Type :=
| HTTPException (code : Z)      (* raised by [abort(code)] *)
| AttributeError
| TypeError
| KeyError
| IndexError
| ValueError
| MultipleResultsFound
| SQLAlchemyError.

Inductive result (A : Type) : Type :=
| Ok (a : A)
| Raise (e : exn).
Arguments Ok {A} a.
Arguments Raise {A} e.

Definition rbind {A B} (m : result A) (k : A -> result B) : result B :=
  match m with
  | Ok a => k a
  | Raise e => Raise e
  end.

Declare Scope result_scope.
Delimit Scope result_scope with result.
Notation "x <- m ;; k" := (rbind m (fun x => k))
  (at level 61, m at next level, right associativity) : result_scope.

(** [abort(code)] raises the HTTP exception of that status. *)
Definition abort {A} (code : Z) : result A := Raise (HTTPException code).

(** [try: m except: h] -- a bare [except] and [except Exception] both catch
    every exception of this model, the one raised by [abort] included. *)
Definition try_except {A} (m : result A) (h : exn -> result A) : result A :=
  match m with
  | Ok a => Ok a
  | Raise e => h e
  end.

(** ** Operations of the Python runtime used by the handlers *)

(** Insertion in a [dict]: an existing key keeps its place and takes the new
    value, a new key goes last. *)
Fixpoint dict_set (d : list (key * value)) (k : key) (v : value)
  : list (key * value) :=
  match d with
  | [] => [(k, v)]
  | (k', v') :: d' =>
      if key_eqb k' k then (k', v) :: d' else (k', v') :: dict_set d' k v
  end.

Fixpoint dict_lookup (d : list (key * value)) (k : key) : option value :=
  match d with
  | [] => None
  | (k', v) :: d' => if key_eqb k' k then Some v else dict_lookup d' k
  end.

(** [obj.get(name, None)]: only a [dict] has the method. *)
Definition py_get (obj : value) (name : string) : result value :=
  match obj with
  | VDict d =>
      match dict_lookup d (KStr name) with
      | Some v => Ok v
      | None => Ok VNone
      end
  | _ => Raise AttributeError
  end.

(** [obj[name]] with a string subscript. *)
Definition py_getitem (obj : value) (name : string) : result value :=
  match obj with
  | VDict d =>
      match dict_lookup d (KStr name) with
      | Some v => Ok v
      | None => Raise KeyError
      end
  | _ => Raise TypeError
  end.

(** Truth value of an object, as [if search:] tests it. *)
Definition truthy (v : value) : bool :=
  match v with
  | VNone => false
  | VBool b => b
  | VInt n => negb (n =? 0)
  | VStr s => negb (String.eqb s EmptyString)
  | VList l | VTuple l => match l with [] => false | _ => true end
  | VDict d => match d with [] => false | _ => true end
  end.

(** [x == n] for an integer [n]: a number compares by value, [True] and
    [False] are the integers 1 and 0, anything else differs. *)
Definition py_eq_int (x : value) (n : Z) : bool :=
  match x with
  | VInt m => m =? n
  | VBool b => Z.b2z b =? n
  | _ => false
  end.

Definition chars (s : string) : list value :=
  map (fun c => VStr (String c EmptyString)) (list_ascii_of_string s).

Definition key_value (k : key) : value :=
  match k with
  | KInt n => VInt n
  | KStr s => VStr s
  end.

(** The elements a [for x in obj] loop visits. *)
Definition py_iter (obj : value) : result (list value) :=
  match obj with
  | VList l | VTuple l => Ok l
  | VStr s => Ok (chars s)
  | VDict d => Ok (map (fun kv => key_value (fst kv)) d)
  | _ => Raise TypeError
  end.

(** [len(obj)]. *)
Definition py_len (obj : value) : result Z :=
  match obj with
  | VList l | VTuple l => Ok (Z.of_nat (List.length l))
  | VStr s => Ok (Z.of_nat (String.length s))
  | VDict d => Ok (Z.of_nat (List.length d))
  | _ => Raise TypeError
  end.

(** Bounds of a slice: a negative index counts from the end, and both ends
    are clamped to the list. *)
Definition slice_index (n i : Z) : Z :=
  if i <? 0 then Z.max (i + n) 0 else Z.min i n.

(** [l[start:stop]]. *)
Definition py_slice {A} (l : list A) (start stop : Z) : list A :=
  let n := Z.of_nat (List.length l) in
  let lo := slice_index n start in
  let hi := slice_index n stop in
  firstn (Z.to_nat (hi - lo)) (skipn (Z.to_nat lo) l).

(** [l[-1]]. *)
Definition py_last {A} (l : list A) : result A :=
  match rev l with
  | [] => Raise IndexError
  | x :: _ => Ok x
  end.

Definition str_of_Z (n : Z) : string := NilZero.string_of_int (Z.to_int n).

Definition join (sep : string) (l : list string) : string :=
  match l with
  | [] => EmptyString
  | x :: l' => fold_left (fun acc y => acc ++ sep ++ y)%string l' x
  end.

(** What the handlers take from outside the program and this development
    leaves open: Python's [repr] of a [str] (it depends on the Unicode
    tables), and what the database engine makes of a Python value bound to an
    integer or a text column (the stored value, [None] for NULL, or the
    error it raises). *)
Record Platform : Type := {
  repr_str : string -> string;
  column_int : value -> result (option Z);
  column_text : value -> result (option string)
}.

Section Formatting.

Variable P : Platform.

Definition key_repr (k : key) : string :=
  match k with
  | KInt n => str_of_Z n
  | KStr s => repr_str P s
  end.

Fixpoint py_repr (v : value) : string :=
  match v with
  | VNone => "None"
  | VBool true => "True"
  | VBool false => "False"
  | VInt n => str_of_Z n
  | VStr s => repr_str P s
  | VList l => "[" ++ join ", " (map py_repr l) ++ "]"
  | VTuple l =>
      match l with
      | [x] => "(" ++ py_repr x ++ ",)"
      | _ => "(" ++ join ", " (map py_repr l) ++ ")"
      end
  | VDict d =>
      "{" ++ join ", "
               (map (fun kv : key * value => let (k, x) := kv in
                               key_repr k ++ ": " ++ py_repr x) d) ++ "}"
  end%string.

(** [str(v)], which is what ['{}'.format(v)] inserts. *)
Definition py_str (v : value) : string :=
  match v with
  | VStr s => s
  | _ => py_repr v
  end.

End Formatting.

(** ** SQL pattern matching *)

Definition lower (c : ascii) : ascii :=
  let n := N_of_ascii c in
  if ((65 <=? n) && (n <=? 90))%N then ascii_of_N (n + 32) else c.

Definition eqb_ci (c d : ascii) : bool := Ascii.eqb (lower c) (lower d).

(** [text ILIKE pattern], as PostgreSQL evaluates it: [%] stands for any run
    of characters, [_] for any one character, a backslash takes the next
    pattern character literally, and letters match whatever their case.  A
    pattern that ends in a lone backslash is refused by the engine; the
    patterns of this program end in [%], so that case gives [false] here. *)
Fixpoint ilike (pattern text : string) {struct pattern} : bool :=
  match pattern with
  | EmptyString =>
      match text with EmptyString => true | String _ _ => false end
  | String c p =>
      if Ascii.eqb c "%" then
        (fix rest (t : string) : bool :=
           ilike p t
           || match t with EmptyString => false | String _ t' => rest t' end)
          text
      else if Ascii.eqb c "_" then
        match text with EmptyString => false | String _ t => ilike p t end
      else if Ascii.eqb c "\" then
        match p with
        | EmptyString => false
        | String c' p' =>
            match text with
            | EmptyString => false
            | String d t => eqb_ci c' d && ilike p' t
            end
        end
      else
        match text with
        | EmptyString => false
        | String d t => eqb_ci c d && ilike p t
        end
  end.

(** ** The stored entities *)

Definition of_text (x : option string) : value :=
  match x with Some s => VStr s | None => VNone end.

Definition of_int (x : option Z) : value :=
  match x with Some n => VInt n | None => VNone end.

Module Question.

Record t : Type := mk {
  id : Z;
  question : option string;
  answer : option string;
  category : option Z;
  difficulty : option Z
}.

(** Modelled from the spec: [Question.format] lives in [models.py], which
    is not among the sources; the spec gives the formatted entity as the
    fields id, question, answer, difficulty and category. *)
Definition format (q : t) : value :=
  VDict [(KStr "id", VInt (id q));
         (KStr "question", of_text (question q));
         (KStr "answer", of_text (answer q));
         (KStr "difficulty", of_int (difficulty q));
         (KStr "category", of_int (category q))].

End Question.

Module Category.

Record t : Type := mk {
  id : Z;
  type : string
}.

End Category.

(** ** Storage *)

(** Modelled from the spec: the storage collaborator ([models.py] over
    SQLAlchemy) is not among the sources.  The two tables are lists of rows in
    the order the engine returns them, [next_id] is the id the next inserted
    question gets, and [commit_fails] says that the engine refuses the next
    commit (a lost connection, a violated constraint): the storage exception
    during a write of the spec. *)
Record DB : Type := {
  db_questions : list Question.t;
  db_categories : list Category.t;
  next_id : Z;
  commit_fails : bool
}.

Fixpoint insert_by_id (q : Question.t) (l : list Question.t)
  : list Question.t :=
  match l with
  | [] => [q]
  | x :: l' =>
      if Question.id q <=? Question.id x then q :: l
      else x :: insert_by_id q l'
  end.

(** [order_by(Question.id)]. *)
Definition order_by_id (l : list Question.t) : list Question.t :=
  fold_right insert_by_id [] l.

(** [.one_or_none()]: no row gives [None], one row gives the row, more raise. *)
Definition one_or_none {A} (rows : list A) : result (option A) :=
  match rows with
  | [] => Ok None
  | [x] => Ok (Some x)
  | _ => Raise MultipleResultsFound
  end.

Definition has_category (c : option Z) (q : Question.t) : bool :=
  match Question.category q, c with
  | Some m, Some n => m =? n
  | None, None => true
  | _, _ => false
  end.

Definition question_matches (pattern : string) (q : Question.t) : bool :=
  match Question.question q with
  | Some text => ilike pattern text
  | None => false
  end.

(** ** Requests *)

(** A request as the handlers see it: [args_page] is the [page] query
    argument converted by [type=int] ([None] when it is absent or is not an
    integer), [get_json] is the outcome of [request.get_json()]: the parsed
    body, [VNone] when the request does not announce JSON, or the HTTP
    exception 400 that Flask raises for a body that does not parse. *)
Record Request : Type := {
  args_page : option Z;
  get_json : result value
}.

(** [request.args.get('page', 1, type=int)]. *)
Definition args_get_page (request : Request) : Z :=
  match args_page request with
  | Some p => p
  | None => 1
  end.

(** ** Pagination helper *)

Definition QUESTIONS_PER_PAGE : Z := 10.

Definition paginate_questions (request : Request)
    (selection : list Question.t) : list value :=
  let page := args_get_page request in
  let start := (page - 1) * QUESTIONS_PER_PAGE in
  let end_ := start + QUESTIONS_PER_PAGE in
  let questions := map Question.format selection in
  let current_questions := py_slice questions start end_ in
  current_questions.

(** ** The state-and-error monad of the handlers that write *)

Definition M (A : Type) : Type := DB -> result A * DB.

Definition ret {A} (a : A) : M A := fun db => (Ok a, db).

Definition bind {A B} (m : M A) (k : A -> M B) : M B :=
  fun db =>
    match m db with
    | (Ok a, db') => k a db'
    | (Raise e, db') => (Raise e, db')
    end.

Definition lift {A} (r : result A) : M A := fun db => (r, db).

Definition query {A} (f : DB -> A) : M A := fun db => (Ok (f db), db).

Definition try_except_M {A} (m : M A) (h : exn -> M A) : M A :=
  fun db =>
    match m db with
    | (Ok a, db') => (Ok a, db')
    | (Raise e, db') => h e db'
    end.

Declare Scope M_scope.
Delimit Scope M_scope with M.
Notation "x <- m ;; k" := (bind m (fun x => k))
  (at level 61, m at next level, right associativity) : M_scope.
Notation "m ;; k" := (bind m (fun _ => k))
  (at level 61, right associativity) : M_scope.

(** Modelled from the spec: [Question.delete] lives in [models.py], which is
    not among the sources.  The row of that id leaves the table, unless the
    commit fails. *)
Definition Question_delete (q : Question.t) : M unit :=
  fun db =>
    if commit_fails db then (Raise SQLAlchemyError, db)
    else
      (Ok tt,
       {| db_questions :=
            filter (fun x => negb (Question.id x =? Question.id q))
                   (db_questions db);
          db_categories := db_categories db;
          next_id := next_id db;
          commit_fails := commit_fails db |}).

(** ** Flask's dispatch *)

Record Response : Type := {
  status : Z;
  body : value
}.

Definition error_body (code : Z) (message : string) : value :=
  VDict [(KStr "success", VBool false);
         (KStr "error", VInt code);
         (KStr "message", VStr message)].

Definition not_found : Response :=
  {| status := 404; body := error_body 404 "resource not found" |}.
Definition unprocessable : Response :=
  {| status := 422; body := error_body 422 "unprocessable" |}.
Definition bad_request : Response :=
  {| status := 400; body := error_body 400 "bad request" |}.
Definition method_not_allowed : Response :=
  {| status := 405; body := error_body 405 "method not allowed" |}.
Definition internal_server_error : Response :=
  {| status := 500; body := error_body 500 "internal server error" |}.

(** What the client receives for the outcome of a view function: the
    jsonified value with status 200, the registered error handler's answer
    for an HTTP exception, the 500 handler's answer for any other exception
    that escapes the view.  (A status without a registered handler gets the
    framework's own page; no handler of this program aborts with one.) *)
Definition respond (r : result value) : Response :=
  match r with
  | Ok v => {| status := 200; body := v |}
  | Raise (HTTPException code) =>
      if code =? 404 then not_found
      else if code =? 422 then unprocessable
      else if code =? 400 then bad_request
      else if code =? 405 then method_not_allowed
      else if code =? 500 then internal_server_error
      else {| status := code; body := VNone |}
  | Raise _ => internal_server_error
  end.

(** ** The handlers *)

Definition len {A} (l : list A) : Z := Z.of_nat (List.length l).

(** The [categories_dict] both listing handlers build, row by row. *)
Definition build_categories_dict (categories : list Category.t)
  : list (key * value) :=
  fold_left
    (fun categories_dict category =>
       dict_set categories_dict (KInt (Category.id category))
                (VStr (Category.type category)))
    categories [].

(** [list(d.items())]. *)
Definition items (d : list (key * value)) : list value :=
  map (fun kv : key * value => let (k, v) := kv in VTuple [key_value k; v]) d.

(** GET /categories *)
Definition get_categories (db : DB) : result value :=
  let categories := db_categories db in
  let categories_dict := build_categories_dict categories in
  if len categories_dict =? 0 then abort 404
  else
    Ok (VDict [(KStr "success", VBool true);
               (KStr "categories", VDict categories_dict)]).

(** GET /questions *)
Definition get_questions (request : Request) (db : DB) : result value :=
  let selection := order_by_id (db_questions db) in
  let current_questions := paginate_questions request selection in
  let categories := db_categories db in
  let categories_dict := build_categories_dict categories in
  let l := items categories_dict in
  (current_category <- py_last l ;;
   if len current_questions =? 0 then abort 404
   else
     Ok (VDict [(KStr "success", VBool true);
                (KStr "questions", VList current_questions);
                (KStr "total_questions", VInt (len (db_questions db)));
                (KStr "categories", VDict categories_dict);
                (KStr "current_category", current_category)]))%result.

(** DELETE /questions/<int:question_id> *)
Definition delete_question (request : Request) (question_id : Z) : M value :=
  try_except_M
    (question <- (rows <- query (fun db =>
                      filter (fun q => Question.id q =? question_id)
                             (db_questions db)) ;;
                  lift (one_or_none rows)) ;;
     match question with
     | None => lift (abort 404)
     | Some question =>
         Question_delete question ;;
         selection <- query (fun db => order_by_id (db_questions db)) ;;
         let current_questions := paginate_questions request selection in
         total <- query (fun db => len (db_questions db)) ;;
         ret (VDict [(KStr "success", VBool true);
                     (KStr "deleted", VInt question_id);
                     (KStr "questions", VList current_questions);
                     (KStr "total_questions", VInt total)])
     end)%M
    (fun _ => lift (abort 422)).

(** GET /categories/<int:category_id>/questions *)
Definition get_questions_by_category (request : Request) (category_id : Z)
    (db : DB) : result value :=
  (category <- one_or_none
                 (filter (fun c => Category.id c =? category_id)
                         (db_categories db)) ;;
   match category with
   | None => abort 400
   | Some category =>
       let selection :=
         filter (has_category (Some (Category.id category)))
                (db_questions db) in
       let current_questions := paginate_questions request selection in
       Ok (VDict [(KStr "success", VBool true);
                  (KStr "questions", VList current_questions);
                  (KStr "total_questions", VInt (len (db_questions db)));
                  (KStr "current_category", VStr (Category.type category))])
   end)%result.

Section Handlers.

Variable P : Platform.

(** Modelled from the spec: the constructor and [Question.insert] live in
    [models.py], which is not among the sources.
    [Question(question=..., ...)] followed by [question.insert()]: the
    engine converts the four values for their columns, the row gets the
    next id and goes into the table, unless the commit fails. *)
Definition Question_insert (question answer category difficulty : value)
  : M Question.t :=
  fun db =>
    match (q <- column_text P question ;;
           a <- column_text P answer ;;
           c <- column_int P category ;;
           d <- column_int P difficulty ;;
           Ok (Question.mk (next_id db) q a c d))%result with
    | Raise e => (Raise e, db)
    | Ok row =>
        if commit_fails db then (Raise SQLAlchemyError, db)
        else
          (Ok row,
           {| db_questions := db_questions db ++ [row];
              db_categories := db_categories db;
              next_id := next_id db + 1;
              commit_fails := commit_fails db |})
    end.

(** The search of POST /questions:
    [Question.query.order_by(Question.id)
       .filter(Question.question.ilike('%{}%'.format(search))).all()] *)
Definition search_questions (search : value) (db : DB) : list Question.t :=
  filter (question_matches ("%" ++ py_str P search ++ "%")%string)
         (order_by_id (db_questions db)).

(** POST /questions *)
Definition create_question (request : Request) : M value :=
  (body <- lift (get_json request) ;;
   new_question <- lift (py_get body "question") ;;
   new_answer <- lift (py_get body "answer") ;;
   new_category <- lift (py_get body "category") ;;
   new_difficulty <- lift (py_get body "difficulty") ;;
   search <- lift (py_get body "searchTerm") ;;
   try_except_M
     (if truthy search then
        selection <- query (search_questions search) ;;
        if len selection =? 0 then
          ret (VDict [(KStr "success", VBool true);
                      (KStr "questions", VList []);
                      (KStr "total_questions", VInt 0)])
        else
          let current_questions := paginate_questions request selection in
          ret (VDict [(KStr "success", VBool true);
                      (KStr "questions", VList current_questions);
                      (KStr "total_questions", VInt (len selection))])
      else
        question <- Question_insert new_question new_answer
                                    new_category new_difficulty ;;
        selection <- query (fun db => order_by_id (db_questions db)) ;;
        let current_questions := paginate_questions request selection in
        total <- query (fun db => len (db_questions db)) ;;
        ret (VDict [(KStr "success", VBool true);
                    (KStr "created", VInt (Question.id question));
                    (KStr "question_created",
                     of_text (Question.question question));
                    (KStr "questions", VList current_questions);
                    (KStr "total_questions", VInt total)]))
     (fun e => lift (abort 422)))%M.

End Handlers.

(** ** Quiz selector *)

(** [questions[random.randrange(0, len(questions), 1)]], where [r] is the raw
    value of the generator for this draw: [randrange] raises on an empty
    range and otherwise gives a position of the list. *)
Definition get_random_question (questions : list Question.t) (r : nat)
  : result Question.t :=
  match questions with
  | [] => Raise ValueError
  | q :: _ => Ok (nth (r mod List.length questions) questions q)
  end.

(** The inner function [check_if_used]: the loop runs over all of
    [previous] and sets the flag at every equal element. *)
Definition check_if_used (previous : value) (question : Question.t)
  : result bool :=
  (xs <- py_iter previous ;;
   Ok (fold_left
         (fun used x =>
            if py_eq_int x (Question.id question) then true else used)
         xs false))%result.

Definition success_only : value := VDict [(KStr "success", VBool true)].

Definition success_question (question : Question.t) : value :=
  VDict [(KStr "success", VBool true);
         (KStr "question", Question.format question)].

(** The [while] loop and the [return] after it.  [question] is the current
    draw, [k] counts the draws made so far, [rand k] is the generator's raw
    value for the next one.  [None] means that the fuel ran out with the loop
    still running. *)
Fixpoint quiz_loop (fuel : nat) (rand : nat -> nat) (previous : value)
    (questions : list Question.t) (total_questions : Z)
    (question : Question.t) (k : nat) : option (result value) :=
  match check_if_used previous question with
  | Raise e => Some (Raise e)
  | Ok false => Some (Ok (success_question question))
  | Ok true =>
      match fuel with
      | O => None
      | S fuel' =>
          match get_random_question questions (rand k) with
          | Raise e => Some (Raise e)
          | Ok question' =>
              match py_len previous with
              | Raise e => Some (Raise e)
              | Ok n =>
                  if n =? total_questions then Some (Ok success_only)
                  else quiz_loop fuel' rand previous questions
                                 total_questions question' (S k)
              end
          end
      end
  end.

Section Quiz.

Variable P : Platform.

(** The value a Python object stands for in a comparison with the integer
    column [Question.category]: an integer is itself, [None] asks for the
    rows without a category, anything else is up to the engine. *)
Definition category_param (v : value) : result (option Z) :=
  match v with
  | VInt n => Ok (Some n)
  | VNone => Ok None
  | _ => column_int P v
  end.

(** The candidate set: every question when [category['id'] == 0], those of
    that category otherwise. *)
Definition candidates (category : value) (db : DB)
  : result (list Question.t) :=
  (id <- py_getitem category "id" ;;
   if py_eq_int id 0 then Ok (db_questions db)
   else
     c <- category_param id ;;
     Ok (filter (has_category c) (db_questions db)))%result.

(** The body of the [try] block of POST /quizzes. *)
Definition quiz_try (fuel : nat) (rand : nat -> nat)
    (previous category : value) (db : DB) : option (result value) :=
  match (questions <- candidates category db ;;
         question <- get_random_question questions (rand O) ;;
         Ok (questions, question))%result with
  | Raise e => Some (Raise e)
  | Ok (questions, question) =>
      let total_questions := len questions in
      quiz_loop fuel rand previous questions total_questions question 1
  end.

(** POST /quizzes *)
Definition get_random_quiz_question (fuel : nat) (rand : nat -> nat)
    (request : Request) (db : DB) : option (result value) :=
  match (body <- get_json request ;;
         previous <- py_get body "previous_questions" ;;
         category <- py_get body "quiz_category" ;;
         Ok (previous, category))%result with
  | Raise e => Some (Raise e)
  | Ok (previous, category) =>
      option_map (fun r => try_except r (fun _ => abort 400))
                 (quiz_try fuel rand previous category db)
  end.

End Quiz.

(** A platform for running the handlers on concrete requests: strings are
    quoted as they are, and the engine takes integers for integer columns,
    strings for text columns and NULL for both. *)
Definition plain_platform : Platform :=
  {| repr_str := fun s => ("'" ++ s ++ "'")%string;
     column_int := fun v =>
       match v with
       | VInt n => Ok (Some n)
       | VNone => Ok None
       | _ => Raise SQLAlchemyError
       end;
     column_text := fun v =>
       match v with
       | VStr s => Ok (Some s)
       | VNone => Ok None
       | _ => Raise SQLAlchemyError
       end |}.

(** ** The specification's page, and sample data *)

(** The page of the specification: the elements of [items] at the positions
    [(p-1)*10], ..., [(p-1)*10 + 9] that exist, in order. *)
Definition page_of_spec {A} (p : Z) (items : list A) : list A :=
  firstn 10 (skipn (Z.to_nat ((p - 1) * 10)) items).

(** The search of the specification: a case-insensitive substring match.
    [prefix_ci s t] says that [t] starts with [s] up to the case of letters,
    [contains_ci s t] that [s] occurs in [t] so. *)
Fixpoint prefix_ci (s t : string) : bool :=
  match s with
  | EmptyString => true
  | String c s' =>
      match t with
      | EmptyString => false
      | String d t' => eqb_ci c d && prefix_ci s' t'
      end
  end.

Fixpoint contains_ci (s t : string) : bool :=
  prefix_ci s t
  || match t with
     | EmptyString => false
     | String _ t' => contains_ci s t'
     end.

(** A term without the characters that mean something in a pattern. *)
Fixpoint plain_term (s : string) : bool :=
  match s with
  | EmptyString => true
  | String c s' =>
      negb (Ascii.eqb c "%") && negb (Ascii.eqb c "_")
      && negb (Ascii.eqb c "\") && plain_term s'
  end.

Definition is_dict (v : value) : bool :=
  match v with
  | VDict _ => true
  | _ => false
  end.

(** The formatted question a response carries under [question], if any. *)
Definition question_field (response : value) : option value :=
  match response with
  | VDict d => dict_lookup d (KStr "question")
  | _ => None
  end.

(** The question the [k]-th draw of a run yields. *)
Definition draw (questions : list Question.t) (rand : nat -> nat) (k : nat)
  : result Question.t :=
  get_random_question questions (rand k).

Definition sample_question (i : Z) (text : string) (c : Z) : Question.t :=
  Question.mk i (Some text) (Some "yes"%string) (Some c) (Some 1).

Definition sample_db : DB :=
  {| db_questions :=
       [sample_question 3 "What is a monad?" 1;
        sample_question 1 "Who wrote Hamlet?" 2;
        sample_question 2 "When did Rome fall?" 1];
     db_categories := [Category.mk 1 "Science"; Category.mk 2 "Art"];
     next_id := 4;
     commit_fails := false |}.

Definition empty_db : DB :=
  {| db_questions := [];
     db_categories := [];
     next_id := 1;
     commit_fails := false |}.

(** Twelve questions with the ids 1 to 12. *)
Definition twelve_questions : list Question.t :=
  map (fun i => sample_question (Z.of_nat i) "Which one?" 1) (seq 1 12).

Definition quiz_request (previous : list Z) (category_id : Z) : Request :=
  {| args_page := None;
     get_json :=
       Ok (VDict [(KStr "previous_questions", VList (map VInt previous));
                  (KStr "quiz_category",
                   VDict [(KStr "type", VStr "click");
                          (KStr "id", VInt category_id)])]) |}.

Definition search_request (page : option Z) (term : string) : Request :=
  {| args_page := page;
     get_json := Ok (VDict [(KStr "searchTerm", VStr term)]) |}.

Definition plain_request (page : option Z) : Request :=
  {| args_page := page; get_json := Ok VNone |}.

Definition second_page : Request := plain_request (Some 2).

(** ** Notions for the properties of the whole interface *)

(** The request for page [i] with a given body. *)
Definition page_request (json : result value) (i : nat) : Request :=
  {| args_page := Some (Z.of_nat i); get_json := json |}.

(** A field of an answer. *)
Definition field (name : string) (response : value) : option value :=
  match response with
  | VDict d => dict_lookup d (KStr name)
  | _ => None
  end.

Definition by_id (q1 q2 : Question.t) : Prop :=
  Question.id q1 <= Question.id q2.

Definition question_ids (db : DB) : list Z :=
  map Question.id (db_questions db).

Definition category_ids (db : DB) : list Z :=
  map Category.id (db_categories db).

(** The entry of the category map a row stands for. *)
Definition category_entry (c : Category.t) : key * value :=
  (KInt (Category.id c), VStr (Category.type c)).

(** What a primary key with a sequence gives: no id twice in the question
    table, and every id below the one the next insertion gets. *)
Definition ids_fresh (db : DB) : Prop :=
  NoDup (question_ids db)
  /\ Forall (fun i => i < next_id db) (question_ids db).

(** The four JSON error answers the handlers of this program can give. *)
Definition error_answer (r : Response) : Prop :=
  r = not_found \/ r = unprocessable \/ r = bad_request
  \/ r = internal_server_error.

(** * Properties *)

(** ** Pagination *)

Lemma page_of_spec_nth {A} (p : Z) (items : list A) (i : nat) :
  nth_error (page_of_spec p items) i =
  if (i <? 10)%nat then nth_error items (Z.to_nat ((p - 1) * 10) + i)
  else None.
Proof.
  unfold page_of_spec.
  destruct (Nat.ltb_spec i 10) as [Hi | Hi].
  - rewrite nth_error_firstn.
    destruct (Nat.ltb_spec i 10); [ | lia].
    now rewrite nth_error_skipn.
  - apply nth_error_None. rewrite length_firstn. lia.
Qed.

(** With bounds that are not negative and in order, a Python slice is the
    plain [firstn]/[skipn] window. *)
Lemma py_slice_window {A} (l : list A) (a b : Z) :
  0 <= a -> a <= b ->
  py_slice l a b = firstn (Z.to_nat (b - a)) (skipn (Z.to_nat a) l).
Proof.
  intros Ha Hab. unfold py_slice, slice_index.
  set (n := Z.of_nat (List.length l)).
  assert (Hn : 0 <= n) by (subst n; lia).
  destruct (Z.ltb_spec a 0) as [? | _]; [lia | ].
  destruct (Z.ltb_spec b 0) as [? | _]; [lia | ].
  destruct (Z_le_gt_dec n a) as [Hna | Hna].
  - rewrite !Z.min_r by lia.
    rewrite (skipn_all2 (n := Z.to_nat n)) by (subst n; lia).
    rewrite (skipn_all2 (n := Z.to_nat a)) by (subst n; lia).
    now rewrite !firstn_nil.
  - rewrite (Z.min_l a n) by lia.
    destruct (Z_le_gt_dec b n) as [Hbn | Hbn].
    + now rewrite Z.min_l by lia.
    + rewrite Z.min_r by lia.
      rewrite !firstn_all2; try reflexivity;
        rewrite length_skipn; subst n; lia.
Qed.

(** Whatever the page argument, zero and negative ones included, a page
    holds at most ten items. *)
Lemma paginate_questions_length (request : Request)
    (selection : list Question.t) :
  (List.length (paginate_questions request selection) <= 10)%nat.
Proof.
  unfold paginate_questions, py_slice, slice_index, QUESTIONS_PER_PAGE.
  set (n := Z.of_nat (List.length (map Question.format selection))).
  set (p := args_get_page request).
  rewrite length_firstn.
  destruct (Z.ltb_spec ((p - 1) * 10) 0);
    destruct (Z.ltb_spec ((p - 1) * 10 + 10) 0); lia.
Qed.

(** For a page numbered from 1 the helper gives the page of the
    specification. *)
Lemma paginate_questions_window (request : Request)
    (selection : list Question.t) :
  1 <= args_get_page request ->
  paginate_questions request selection
  = page_of_spec (args_get_page request) (map Question.format selection).
Proof.
  intros Hp.
  unfold paginate_questions, page_of_spec, QUESTIONS_PER_PAGE.
  set (p := args_get_page request) in *.
  rewrite py_slice_window by lia.
  now replace ((p - 1) * 10 + 10 - (p - 1) * 10) with 10 by lia.
Qed.

Lemma paginate_questions_past_end (request : Request)
    (selection : list Question.t) :
  1 <= args_get_page request ->
  len selection <= (args_get_page request - 1) * 10 ->
  paginate_questions request selection = [].
Proof.
  intros Hp Hlen. rewrite paginate_questions_window by assumption.
  unfold page_of_spec. rewrite skipn_all2; [apply firstn_nil | ].
  rewrite length_map. unfold len in Hlen. lia.
Qed.

(** C1.  For a page number [p >= 1], [paginate_questions] returns the slice
    of the formatted items from position [(p-1)*10] up to, and not including,
    position [(p-1)*10 + 10]; it has at most 10 elements, and it is the empty
    list (no error is possible: the function is total) when the list ends
    before that position. *)
Theorem paginate_questions_page (request : Request)
    (selection : list Question.t) :
  1 <= args_get_page request ->
  let p := args_get_page request in
  let items := map Question.format selection in
  paginate_questions request selection = page_of_spec p items
  /\ (List.length (paginate_questions request selection) <= 10)%nat
  /\ (len items <= (p - 1) * 10 ->
      paginate_questions request selection = []).
Proof.
  intros Hp p items. split; [ | split].
  - now apply paginate_questions_window.
  - apply paginate_questions_length.
  - intros Hlen. apply paginate_questions_past_end; [exact Hp | ].
    subst items. unfold len in *. now rewrite length_map in Hlen.
Qed.

Lemma paginate_questions_page_witness :
  1 <= args_get_page second_page
  /\ paginate_questions second_page twelve_questions
     = page_of_spec 2 (map Question.format twelve_questions)
  /\ (List.length (paginate_questions second_page
                                      twelve_questions) <= 10)%nat
  /\ (len (map Question.format twelve_questions) <= (2 - 1) * 10 ->
      paginate_questions second_page twelve_questions = []).
Proof.
  split; [vm_compute; discriminate | ].
  apply (paginate_questions_page second_page twelve_questions).
  vm_compute; discriminate.
Defined.

(** Page 0 asks for the slice [-10:0], which is empty; page -1 asks for
    [-20:-10], which of twelve questions holds the first two. *)
Example paginate_page_zero :
  paginate_questions (plain_request (Some 0)) twelve_questions = []
  /\ paginate_questions (plain_request (Some (-1))) twelve_questions
     = map Question.format
           [sample_question 1 "Which one?" 1;
            sample_question 2 "Which one?" 1].
Proof. split; reflexivity. Qed.

(** The second page of twelve questions holds the questions 11 and 12. *)
Example paginate_second_page :
  paginate_questions second_page twelve_questions
  = map Question.format
        [sample_question 11 "Which one?" 1; sample_question 12 "Which one?" 1].
Proof. reflexivity. Qed.

(** ** Deleting a question *)

Lemma delete_question_missing (request : Request) (question_id : Z)
    (db : DB) :
  filter (fun q => Question.id q =? question_id) (db_questions db) = [] ->
  delete_question request question_id db = (Raise (HTTPException 422), db).
Proof.
  intros Hnone.
  unfold delete_question, try_except_M, bind, query, lift.
  now rewrite Hnone.
Qed.

(** Any failure inside the [try] block ends as 422; in particular a commit
    that the engine refuses. *)
Lemma delete_question_commit_fails (request : Request) (question_id : Z)
    (db : DB) (question : Question.t) :
  filter (fun q => Question.id q =? question_id) (db_questions db)
  = [question] ->
  commit_fails db = true ->
  delete_question request question_id db = (Raise (HTTPException 422), db).
Proof.
  intros Hone Hfail.
  unfold delete_question, try_except_M, bind, query, lift, Question_delete.
  rewrite Hone. simpl. now rewrite Hfail.
Qed.

(** The handler answers 200 or 422 and nothing else: the 404 it aborts with
    never leaves the [try] block. *)
Lemma delete_question_status (request : Request) (question_id : Z)
    (db : DB) :
  let r := fst (delete_question request question_id db) in
  status (respond r) = 200 \/ respond r = unprocessable.
Proof.
  unfold delete_question, try_except_M, bind, query, lift, Question_delete.
  destruct (one_or_none _) as [[question | ] | e]; simpl.
  - destruct (commit_fails db); simpl; auto.
  - auto.
  - auto.
Qed.

(** C2.  DELETE /questions/1 on a store without a question 1: the handler
    finds no row and aborts with 404 inside the [try] block, the bare
    [except] catches that and aborts with 422, and the client gets the 422
    answer where the specification has 404. *)
Theorem delete_missing_question_answers_422 :
  respond (fst (delete_question (plain_request None) 1 empty_db))
  = unprocessable
  /\ status (respond (fst (delete_question (plain_request None) 1 empty_db)))
     <> 404.
Proof.
  split; [reflexivity | discriminate].
Qed.

(** A repeat delete: the first request removes question 2, the second one for
    the same id is answered 422. *)
Example delete_twice :
  let (first, db') := delete_question (plain_request None) 2 sample_db in
  status (respond first) = 200
  /\ respond (fst (delete_question (plain_request None) 2 db'))
     = unprocessable.
Proof. split; reflexivity. Qed.

(** ** Listing the questions *)

Lemma dict_set_not_nil (d : list (key * value)) (k : key) (v : value) :
  dict_set d k v <> [].
Proof.
  destruct d as [ | [k' v'] d']; simpl; [discriminate | ].
  destruct (key_eqb k' k); discriminate.
Qed.

Lemma build_categories_dict_not_nil (categories : list Category.t) :
  categories <> [] -> build_categories_dict categories <> [].
Proof.
  unfold build_categories_dict.
  assert (Hfold : forall cs d, d <> [] ->
            fold_left
              (fun categories_dict category =>
                 dict_set categories_dict (KInt (Category.id category))
                          (VStr (Category.type category))) cs d <> []).
  { induction cs as [ | c cs IH]; intros d Hd; simpl; [exact Hd | ].
    apply IH, dict_set_not_nil. }
  destruct categories as [ | c cs]; [congruence | ].
  intros _. cbn [fold_left]. apply Hfold, dict_set_not_nil.
Qed.

Lemma py_last_not_nil {A} (l : list A) :
  l <> [] -> exists x, py_last l = Ok x.
Proof.
  intros Hl. unfold py_last.
  destruct (rev l) as [ | x r] eqn:Hrev.
  - apply (f_equal (@rev A)) in Hrev. rewrite rev_involutive in Hrev.
    now destruct Hl.
  - now exists x.
Qed.

(** With at least one category row the handler does what the specification
    says: 404 on an empty page, and otherwise the page with the count of all
    questions. *)
Lemma get_questions_with_categories (request : Request) (db : DB) :
  db_categories db <> [] ->
  let page := paginate_questions request (order_by_id (db_questions db)) in
  (page = [] -> respond (get_questions request db) = not_found)
  /\ (page <> [] ->
      exists current_category,
        get_questions request db =
        Ok (VDict [(KStr "success", VBool true);
                   (KStr "questions", VList page);
                   (KStr "total_questions", VInt (len (db_questions db)));
                   (KStr "categories",
                    VDict (build_categories_dict (db_categories db)));
                   (KStr "current_category", current_category)])).
Proof.
  intros Hcat page.
  destruct (py_last_not_nil (items (build_categories_dict (db_categories db))))
    as [current Hcurrent].
  { unfold items. intros Hnil. apply map_eq_nil in Hnil.
    now apply build_categories_dict_not_nil in Hcat. }
  unfold get_questions. rewrite Hcurrent. simpl. fold page.
  split.
  - intros ->. reflexivity.
  - intros Hpage. exists current.
    destruct page as [ | x page']; [congruence | ].
    reflexivity.
Qed.

(** C8.  With an empty category table GET /questions takes the last item of
    an empty list before it looks at the page: the view raises [IndexError],
    whatever the questions and the page are, and the client gets the 500
    answer, not the 404 one. *)
Theorem get_questions_without_categories (request : Request) (db : DB) :
  db_categories db = [] ->
  get_questions request db = Raise IndexError
  /\ respond (get_questions request db) = internal_server_error
  /\ respond (get_questions request db) <> not_found.
Proof.
  intros Hcat. unfold get_questions. rewrite Hcat. simpl.
  repeat split. discriminate.
Qed.

Lemma get_questions_without_categories_witness :
  db_categories empty_db = []
  /\ get_questions (plain_request None) empty_db = Raise IndexError
  /\ respond (get_questions (plain_request None) empty_db)
     = internal_server_error
  /\ respond (get_questions (plain_request None) empty_db) <> not_found.
Proof.
  split; [reflexivity | ].
  apply (get_questions_without_categories (plain_request None) empty_db).
  reflexivity.
Defined.

(** C7.  GET /questions on a store with no question and no category: the
    page is empty, and the answer is 500 where the specification has 404. *)
Theorem get_questions_empty_store_answers_500 :
  paginate_questions (plain_request None)
                     (order_by_id (db_questions empty_db)) = []
  /\ respond (get_questions (plain_request None) empty_db)
     = internal_server_error
  /\ status (respond (get_questions (plain_request None) empty_db)) <> 404.
Proof.
  repeat split. discriminate.
Qed.

(** The scenario of the specification: page 999 of a store with categories
    is answered 404. *)
Example get_questions_page_999 :
  respond (get_questions (plain_request (Some 999)) sample_db) = not_found.
Proof. reflexivity. Qed.

(** ** Listing the questions of a category *)

(** C6.  For an existing category, [total_questions] of the answer of
    GET /categories/<id>/questions is the number of all stored questions,
    while [questions] is the page of those of the category. *)
Theorem by_category_total_counts_all (request : Request) (category_id : Z)
    (db : DB) (category : Category.t) :
  filter (fun c => Category.id c =? category_id) (db_categories db)
  = [category] ->
  get_questions_by_category request category_id db =
  Ok (VDict [(KStr "success", VBool true);
             (KStr "questions",
              VList (paginate_questions request
                       (filter (has_category (Some (Category.id category)))
                               (db_questions db))));
             (KStr "total_questions", VInt (len (db_questions db)));
             (KStr "current_category", VStr (Category.type category))]).
Proof.
  intros Hone. unfold get_questions_by_category. now rewrite Hone.
Qed.

Lemma by_category_total_counts_all_witness :
  filter (fun c => Category.id c =? 2) (db_categories sample_db)
  = [Category.mk 2 "Art"]
  /\ get_questions_by_category (plain_request None) 2 sample_db =
     Ok (VDict [(KStr "success", VBool true);
                (KStr "questions",
                 VList (paginate_questions (plain_request None)
                          (filter (has_category (Some 2))
                                  (db_questions sample_db))));
                (KStr "total_questions", VInt (len (db_questions sample_db)));
                (KStr "current_category", VStr "Art")]).
Proof.
  split; [reflexivity | ].
  apply (by_category_total_counts_all (plain_request None) 2 sample_db
           (Category.mk 2 "Art")).
  reflexivity.
Defined.

(** One question out of three belongs to category 2, and the answer counts
    three. *)
Example by_category_counts_three :
  get_questions_by_category (plain_request None) 2 sample_db =
  Ok (VDict [(KStr "success", VBool true);
             (KStr "questions",
              VList [Question.format (sample_question 1 "Who wrote Hamlet?" 2)]);
             (KStr "total_questions", VInt 3);
             (KStr "current_category", VStr "Art")]).
Proof. reflexivity. Qed.

(** C10.  For an existing category, GET /categories/<id>/questions is
    answered 200 whatever the page holds: an empty page gives the answer
    with [questions] the empty list, and the page is empty when the category
    has no question or when the page (numbered from 1) starts after the last
    question of the category. *)
Theorem by_category_empty_page_succeeds (request : Request)
    (category_id : Z) (db : DB) (category : Category.t) :
  filter (fun c => Category.id c =? category_id) (db_categories db)
  = [category] ->
  let selection :=
    filter (has_category (Some (Category.id category))) (db_questions db) in
  status (respond (get_questions_by_category request category_id db)) = 200
  /\ (paginate_questions request selection = [] ->
      get_questions_by_category request category_id db =
      Ok (VDict [(KStr "success", VBool true);
                 (KStr "questions", VList []);
                 (KStr "total_questions", VInt (len (db_questions db)));
                 (KStr "current_category", VStr (Category.type category))]))
  /\ (selection = []
      \/ (1 <= args_get_page request
          /\ len selection <= (args_get_page request - 1) * 10) ->
      paginate_questions request selection = []).
Proof.
  intros Hone selection.
  unfold get_questions_by_category. rewrite Hone. cbn [one_or_none rbind].
  fold selection. split; [reflexivity | split].
  - now intros ->.
  - intros [-> | [Hp Hlen]].
    + unfold paginate_questions, py_slice. simpl.
      now rewrite skipn_nil, firstn_nil.
    + now apply paginate_questions_past_end.
Qed.

Lemma by_category_empty_page_succeeds_witness :
  filter (fun c => Category.id c =? 2) (db_categories sample_db)
  = [Category.mk 2 "Art"]
  /\ get_questions_by_category second_page 2 sample_db =
     Ok (VDict [(KStr "success", VBool true);
                (KStr "questions", VList []);
                (KStr "total_questions", VInt 3);
                (KStr "current_category", VStr "Art")]).
Proof.
  split; [reflexivity | ].
  apply (by_category_empty_page_succeeds second_page 2 sample_db
           (Category.mk 2 "Art")); reflexivity.
Defined.

(** ** Creating and searching questions *)

Lemma py_get_dict (d : list (key * value)) (name : string) :
  exists v, py_get (VDict d) name = Ok v.
Proof.
  unfold py_get. destruct (dict_lookup d (KStr name)) as [v | ]; eauto.
Qed.

Lemma py_get_not_dict (obj : value) (name : string) :
  is_dict obj = false -> py_get obj name = Raise AttributeError.
Proof.
  destruct obj; simpl; intros H; try reflexivity; discriminate.
Qed.

Lemma py_get_ok_dict (obj : value) (name : string) (v : value) :
  py_get obj name = Ok v -> exists d, obj = VDict d.
Proof.
  destruct obj; simpl; intros H; try discriminate; eauto.
Qed.

(** The branch of an empty selection: a POST /questions whose [searchTerm]
    is present and true as a condition (for a string: not empty) and whose
    search selects no question is answered 200 with an empty [questions]
    list and [total_questions] 0, whatever the page argument is; the store
    is left as it is. *)
Lemma search_without_match (P : Platform) (request : Request) (db : DB)
    (body search : value) :
  get_json request = Ok body ->
  py_get body "searchTerm" = Ok search ->
  truthy search = true ->
  search_questions P search db = [] ->
  create_question P request db =
  (Ok (VDict [(KStr "success", VBool true);
              (KStr "questions", VList []);
              (KStr "total_questions", VInt 0)]), db)
  /\ status (respond (fst (create_question P request db))) = 200.
Proof.
  intros Hbody Hsearch Htrue Hnone.
  destruct (py_get_ok_dict _ _ _ Hsearch) as [d Hd].
  assert (Hrun : create_question P request db =
                 (Ok (VDict [(KStr "success", VBool true);
                             (KStr "questions", VList []);
                             (KStr "total_questions", VInt 0)]), db)).
  { unfold create_question. rewrite Hbody.
    unfold bind at 1. unfold lift at 1. rewrite Hsearch. rewrite Hd.
    destruct (py_get_dict d "question") as [v1 ->].
    destruct (py_get_dict d "answer") as [v2 ->].
    destruct (py_get_dict d "category") as [v3 ->].
    destruct (py_get_dict d "difficulty") as [v4 ->].
    unfold bind, lift, try_except_M, query, ret.
    rewrite Htrue, Hnone. reflexivity. }
  split; [exact Hrun | now rewrite Hrun].
Qed.

Example search_without_match_zebra :
  get_json (search_request (Some 7) "zebra")
  = Ok (VDict [(KStr "searchTerm", VStr "zebra")])
  /\ py_get (VDict [(KStr "searchTerm", VStr "zebra")]) "searchTerm"
     = Ok (VStr "zebra")
  /\ truthy (VStr "zebra") = true
  /\ search_questions plain_platform (VStr "zebra") sample_db = []
  /\ create_question plain_platform (search_request (Some 7) "zebra")
                     sample_db =
     (Ok (VDict [(KStr "success", VBool true);
                 (KStr "questions", VList []);
                 (KStr "total_questions", VInt 0)]), sample_db)
  /\ status (respond (fst (create_question plain_platform
                             (search_request (Some 7) "zebra") sample_db)))
     = 200.
Proof.
  split; [reflexivity | ].
  split; [reflexivity | ].
  split; [reflexivity | ].
  split; [reflexivity | ].
  apply (search_without_match plain_platform
           (search_request (Some 7) "zebra") sample_db
           (VDict [(KStr "searchTerm", VStr "zebra")]) (VStr "zebra"));
    reflexivity.
Qed.

(** For a term without [%], [_] and backslash, the [ILIKE] search of the
    code is the case-insensitive substring match of the specification. *)
Lemma ilike_any (t : string) : ilike "%" t = true.
Proof.
  induction t as [ | d t IH]; [reflexivity | ].
  cbn in *. exact IH.
Qed.

Lemma ilike_percent (p t : string) :
  ilike (String "%" p) t
  = ilike p t
    || match t with
       | EmptyString => false
       | String _ t' => ilike (String "%" p) t'
       end.
Proof.
  destruct t; reflexivity.
Qed.

Lemma ilike_plain_prefix (s : string) :
  plain_term s = true ->
  forall t, ilike (s ++ "%") t = prefix_ci s t.
Proof.
  induction s as [ | c s IH]; intros Hplain t.
  - apply ilike_any.
  - cbn [plain_term] in Hplain.
    apply andb_prop in Hplain as [Hplain Hs].
    apply andb_prop in Hplain as [Hplain H3].
    apply andb_prop in Hplain as [H1 H2].
    apply negb_true_iff in H1, H2, H3.
    cbn [append ilike prefix_ci]. rewrite H1, H2, H3.
    destruct t as [ | d t]; [reflexivity | ].
    now rewrite IH.
Qed.

Lemma ilike_plain_term (s t : string) :
  plain_term s = true ->
  ilike ("%" ++ s ++ "%") t = contains_ci s t.
Proof.
  intros Hplain. change ("%" ++ s ++ "%")%string with (String "%" (s ++ "%")).
  induction t as [ | d t IH].
  - rewrite ilike_percent, ilike_plain_prefix by assumption.
    cbn [contains_ci]. reflexivity.
  - rewrite ilike_percent, ilike_plain_prefix by assumption.
    cbn [contains_ci]. now rewrite IH.
Qed.

Lemma search_questions_plain (P : Platform) (s : string) (db : DB) :
  plain_term s = true ->
  search_questions P (VStr s) db =
  filter (fun q => match Question.question q with
                   | Some text => contains_ci s text
                   | None => false
                   end)
         (order_by_id (db_questions db)).
Proof.
  intros Hplain. unfold search_questions. apply filter_ext.
  intros q. unfold question_matches. cbn [py_str].
  destruct (Question.question q); [ | reflexivity].
  now apply ilike_plain_term.
Qed.

(** The search finds a term whatever the case of its letters. *)
Example search_ignores_case :
  fst (create_question plain_platform (search_request None "HAMLET")
                       sample_db) =
  Ok (VDict [(KStr "success", VBool true);
             (KStr "questions",
              VList [Question.format
                       (sample_question 1 "Who wrote Hamlet?" 2)]);
             (KStr "total_questions", VInt 1)]).
Proof. reflexivity. Qed.

(** A percent sign in the term is a wildcard for the engine: no question
    text holds one, and the search selects every question. *)
Example search_percent_sign :
  filter (fun q => match Question.question q with
                   | Some text => contains_ci "%" text
                   | None => false
                   end) (db_questions sample_db) = []
  /\ List.length (search_questions plain_platform (VStr "%") sample_db)
     = 3%nat.
Proof. split; reflexivity. Qed.

(** ** Quiz selector *)

Lemma fold_used (n : Z) (xs : list value) (b : bool) :
  fold_left (fun used x => if py_eq_int x n then true else used) xs b
  = b || existsb (fun x => py_eq_int x n) xs.
Proof.
  revert b. induction xs as [ | x xs IH]; intros b; simpl.
  - now rewrite orb_false_r.
  - rewrite IH. destruct (py_eq_int x n), b; reflexivity.
Qed.

Lemma check_if_used_false (previous : value) (question : Question.t) :
  check_if_used previous question = Ok false ->
  exists xs, py_iter previous = Ok xs
    /\ forall x, In x xs -> py_eq_int x (Question.id question) = false.
Proof.
  unfold check_if_used.
  destruct (py_iter previous) as [xs | e]; simpl; [ | discriminate].
  rewrite fold_used. simpl. intros [= Hex].
  exists xs. split; [reflexivity | ].
  intros x Hx.
  destruct (py_eq_int x (Question.id question)) eqn:Heq; [ | reflexivity].
  assert (existsb (fun x => py_eq_int x (Question.id question)) xs = true)
    by (apply existsb_exists; eauto).
  congruence.
Qed.

Lemma check_if_used_list (l : list value) (question : Question.t) :
  exists b, check_if_used (VList l) question = Ok b.
Proof.
  unfold check_if_used. simpl. eauto.
Qed.

Lemma draw_in (questions : list Question.t) (rand : nat -> nat) (k : nat) :
  questions <> [] ->
  exists q, draw questions rand k = Ok q /\ In q questions.
Proof.
  intros Hne. unfold draw, get_random_question.
  destruct questions as [ | q0 qs]; [congruence | ].
  eexists. split; [reflexivity | ].
  apply nth_In. apply Nat.mod_upper_bound. simpl. lia.
Qed.

Lemma draw_ok_in (questions : list Question.t) (rand : nat -> nat) (k : nat)
    (q : Question.t) :
  draw questions rand k = Ok q -> In q questions.
Proof.
  intros Hq.
  destruct questions as [ | q0 qs]; [discriminate | ].
  destruct (draw_in (q0 :: qs) rand k) as [q' [Hq' Hin]]; congruence.
Qed.

(** How a run of the loop can end: with a question that [check_if_used]
    finds unused, with the bare success once the length of [previous] is the
    number of candidates, or with an exception. *)
Lemma quiz_loop_result (fuel : nat) (rand : nat -> nat) (previous : value)
    (questions : list Question.t) (total : Z) :
  forall (question : Question.t) (k : nat) (r : result value),
  In question questions ->
  quiz_loop fuel rand previous questions total question k = Some r ->
  (exists q, In q questions
     /\ check_if_used previous q = Ok false
     /\ r = Ok (success_question q))
  \/ (r = Ok success_only /\ py_len previous = Ok total)
  \/ (exists e, r = Raise e).
Proof.
  induction fuel as [ | fuel IH]; intros question k r Hin; simpl.
  - destruct (check_if_used previous question) as [[ | ] | e] eqn:Hused.
    + discriminate.
    + intros [= <-]. left. eauto.
    + intros [= <-]. right. right. eauto.
  - destruct (check_if_used previous question) as [[ | ] | e] eqn:Hused.
    + destruct (get_random_question questions (rand k)) as [q' | e] eqn:Hq'.
      * destruct (py_len previous) as [n | e] eqn:Hlen.
        -- destruct (Z.eqb_spec n total) as [-> | Hne].
           ++ intros [= <-]. right. left. auto.
           ++ apply IH. exact (draw_ok_in questions rand k q' Hq').
        -- intros [= <-]. right. right. eauto.
      * intros [= <-]. right. right. eauto.
    + intros [= <-]. left. eauto.
    + intros [= <-]. right. right. eauto.
Qed.

(** A used question and a [previous] as long as the candidate set: the next
    turn of the loop answers with the bare success. *)
Lemma quiz_loop_stops (fuel : nat) (rand : nat -> nat) (previous : value)
    (questions : list Question.t) (total : Z) (question : Question.t)
    (k : nat) :
  questions <> [] ->
  check_if_used previous question = Ok true ->
  py_len previous = Ok total ->
  quiz_loop (S fuel) rand previous questions total question k
  = Some (Ok success_only).
Proof.
  intros Hne Hused Hlen. simpl. rewrite Hused.
  destruct (draw_in questions rand k Hne) as [q' [Hq' _]].
  unfold draw in Hq'. rewrite Hq', Hlen, Z.eqb_refl. reflexivity.
Qed.

(** Used questions only and a [previous] of another length: the loop is
    still running when the fuel is spent, whatever the fuel. *)
Lemma quiz_loop_runs (rand : nat -> nat) (previous : value)
    (questions : list Question.t) (total n : Z) :
  py_len previous = Ok n -> n <> total ->
  (forall j, exists q,
      draw questions rand j = Ok q /\ check_if_used previous q = Ok true) ->
  forall (fuel : nat) (question : Question.t) (k : nat),
  check_if_used previous question = Ok true ->
  quiz_loop fuel rand previous questions total question k = None.
Proof.
  intros Hlen Hne Hall.
  induction fuel as [ | fuel IH]; intros question k Hused; simpl;
    rewrite Hused; [reflexivity | ].
  destruct (Hall k) as [q' [Hq' Hused']].
  unfold draw in Hq'. rewrite Hq', Hlen.
  destruct (Z.eqb_spec n total) as [? | _]; [congruence | ].
  now apply IH.
Qed.

(** Progress: when the draw number [k + n] yields an unused question, [n + 1]
    units of fuel are enough for the loop to answer. *)
Lemma quiz_loop_returns (rand : nat -> nat) (l : list value)
    (questions : list Question.t) (total : Z) :
  forall (n : nat) (question : Question.t) (k fuel : nat) (q : Question.t),
  draw questions rand (k + n) = Ok q ->
  check_if_used (VList l) q = Ok false ->
  (n < fuel)%nat ->
  exists r, quiz_loop fuel rand (VList l) questions total question k = Some r.
Proof.
  induction n as [ | n IH]; intros question k fuel q Hq Hfree Hfuel;
    (destruct fuel as [ | fuel]; [lia | ]); cbn [quiz_loop];
    destruct (check_if_used_list l question) as [[ | ] Hused];
    rewrite Hused; eauto.
  - rewrite Nat.add_0_r in Hq. unfold draw in Hq. rewrite Hq.
    destruct (py_len (VList l)) as [m | e]; eauto.
    destruct (m =? total); eauto.
    destruct fuel; cbn [quiz_loop]; rewrite Hfree; eauto.
  - destruct (draw_in questions rand k) as [q' [Hq' _]].
    { intros ->. discriminate. }
    unfold draw in Hq'. rewrite Hq'.
    destruct (py_len (VList l)) as [m | e]; eauto.
    destruct (m =? total); eauto.
    apply (IH q' (S k) fuel q); [ | exact Hfree | lia].
    now replace (S k + n)%nat with (k + S n)%nat by lia.
Qed.

(** On a list, and with candidates, no exception comes out of the loop. *)
Lemma quiz_loop_list_no_raise (fuel : nat) (rand : nat -> nat)
    (l : list value) (questions : list Question.t) (total : Z) :
  questions <> [] ->
  forall (question : Question.t) (k : nat) (e : exn),
  quiz_loop fuel rand (VList l) questions total question k
  <> Some (Raise e).
Proof.
  intros Hne.
  induction fuel as [ | fuel IH]; intros question k e; cbn [quiz_loop];
    destruct (check_if_used_list l question) as [[ | ] Hused];
    rewrite Hused; try discriminate.
  destruct (draw_in questions rand k Hne) as [q' [Hq' _]].
  unfold draw in Hq'. rewrite Hq'. cbn [py_len].
  destruct (_ =? _); [discriminate | apply IH].
Qed.

Section QuizProperties.

Variable P : Platform.

(** The handler once the body fields are read and the first draw is made:
    the loop under the [except] clause. *)
Lemma quiz_run (fuel : nat) (rand : nat -> nat) (request : Request)
    (db : DB) (body previous category : value)
    (questions : list Question.t) (question : Question.t) :
  get_json request = Ok body ->
  py_get body "previous_questions" = Ok previous ->
  py_get body "quiz_category" = Ok category ->
  candidates P category db = Ok questions ->
  draw questions rand 0 = Ok question ->
  get_random_quiz_question P fuel rand request db =
  option_map (fun r => try_except r (fun _ => abort 400))
    (quiz_loop fuel rand previous questions (len questions) question 1).
Proof.
  intros Hbody Hprev Hcat Hcand Hdraw.
  unfold get_random_quiz_question, quiz_try.
  rewrite Hbody. cbn [rbind].
  rewrite Hprev, Hcat. cbn [rbind]. rewrite Hcand. cbn [rbind].
  unfold draw in Hdraw. now rewrite Hdraw.
Qed.

(** C3.  When POST /quizzes answers with a [question] field, the field is
    the formatted form of a question of the candidate set that
    [check_if_used] finds unused: no element of [previous_questions] equals
    its id.  (Nothing has to be assumed of the candidate set.) *)
Theorem quiz_question_is_unused (fuel : nat) (rand : nat -> nat)
    (request : Request) (db : DB) (response qv : value) :
  get_random_quiz_question P fuel rand request db = Some (Ok response) ->
  question_field response = Some qv ->
  exists body previous category questions question,
    get_json request = Ok body
    /\ py_get body "previous_questions" = Ok previous
    /\ py_get body "quiz_category" = Ok category
    /\ candidates P category db = Ok questions
    /\ In question questions
    /\ qv = Question.format question
    /\ check_if_used previous question = Ok false
    /\ (forall l, previous = VList l ->
        ~ In (VInt (Question.id question)) l).
Proof.
  unfold get_random_quiz_question, quiz_try.
  destruct (get_json request) as [body | e] eqn:Hbody; cbn [rbind];
    [ | discriminate].
  destruct (py_get body "previous_questions")
    as [previous | e] eqn:Hprev; cbn [rbind]; [ | discriminate].
  destruct (py_get body "quiz_category")
    as [category | e] eqn:Hcat; cbn [rbind]; [ | discriminate].
  destruct (candidates P category db) as [questions | e] eqn:Hcand;
    cbn [rbind]; [ | discriminate].
  destruct (get_random_question questions (rand O)) as [q0 | e] eqn:Hq0;
    cbn [rbind]; [ | discriminate].
  destruct (quiz_loop fuel rand previous questions (len questions) q0 1)
    as [r | ] eqn:Hloop; cbn [option_map]; [ | discriminate].
  intros Hr Hfield.
  assert (Hrr : r = Ok response)
    by (destruct r; unfold try_except, abort in Hr;
        [congruence | discriminate]).
  subst r.
  apply quiz_loop_result in Hloop;
    [ | exact (draw_ok_in questions rand 0 q0 Hq0)].
  destruct Hloop as [[q [Hin [Hfree Heq]]] | [[Heq _] | [e Heq]]].
  - injection Heq as ->. simpl in Hfield. injection Hfield as <-.
    exists body, previous, category, questions, q.
    repeat (split; [assumption || reflexivity | ]).
    intros l -> Hl.
    destruct (check_if_used_false _ _ Hfree) as [xs [[= <-] Hxs]].
    specialize (Hxs _ Hl). simpl in Hxs.
    now rewrite Z.eqb_refl in Hxs.
  - injection Heq as ->. discriminate.
  - discriminate.
Qed.

(** C4.  With a list as [previous_questions] and a candidate set that is
    not empty: (1) at any turn of the loop, a used question and a
    [previous_questions] as long as the candidate set end the loop with the
    bare success; (2) so does the request when its first draw is used, and
    the answer has no [question] field; (3) with another length and used
    questions at every draw the loop is still running whatever the fuel;
    (4) an answer is either an unused question or the bare success with the
    two lengths equal. *)
Theorem quiz_stops_on_equal_lengths (fuel : nat) (rand : nat -> nat)
    (request : Request) (db : DB) (body : value) (previous : list value)
    (category : value) (questions : list Question.t) :
  get_json request = Ok body ->
  py_get body "previous_questions" = Ok (VList previous) ->
  py_get body "quiz_category" = Ok category ->
  candidates P category db = Ok questions ->
  questions <> [] ->
  (forall question k,
      check_if_used (VList previous) question = Ok true ->
      len previous = len questions ->
      quiz_loop (S fuel) rand (VList previous) questions (len questions)
                question k = Some (Ok success_only))
  /\ ((exists question,
          draw questions rand 0 = Ok question
          /\ check_if_used (VList previous) question = Ok true) ->
      len previous = len questions ->
      get_random_quiz_question P (S fuel) rand request db
      = Some (Ok success_only)
      /\ question_field success_only = None)
  /\ (len previous <> len questions ->
      (forall j, exists question,
          draw questions rand j = Ok question
          /\ check_if_used (VList previous) question = Ok true) ->
      get_random_quiz_question P fuel rand request db = None)
  /\ (forall r,
        get_random_quiz_question P fuel rand request db = Some r ->
        (exists question,
            In question questions
            /\ check_if_used (VList previous) question = Ok false
            /\ r = Ok (success_question question))
        \/ (r = Ok success_only /\ len previous = len questions)).
Proof.
  intros Hbody Hprev Hcat Hcand Hne.
  destruct (draw_in questions rand 0 Hne) as [q0 [Hq0 Hin0]].
  split; [ | split; [ | split]].
  - intros question k Hused Hlen.
    apply quiz_loop_stops; [assumption | assumption | ].
    simpl. now rewrite <- Hlen.
  - intros [question [Hq Hused]] Hlen.
    split; [ | reflexivity].
    rewrite (quiz_run (S fuel) rand request db _ _ _ _ _
                      Hbody Hprev Hcat Hcand Hq).
    rewrite quiz_loop_stops; [reflexivity | assumption | assumption | ].
    simpl. now rewrite <- Hlen.
  - intros Hlen Hall.
    rewrite (quiz_run fuel rand request db _ _ _ _ _
               Hbody Hprev Hcat Hcand Hq0).
    rewrite (quiz_loop_runs rand (VList previous) questions
               (len questions) (len previous)); try reflexivity;
      try assumption.
    destruct (Hall O) as [q [Hq Hused]]. congruence.
  - intros r.
    rewrite (quiz_run fuel rand request db _ _ _ _ _
               Hbody Hprev Hcat Hcand Hq0).
    destruct (quiz_loop fuel rand (VList previous) questions
                (len questions) q0 1) as [r' | ] eqn:Hloop;
      cbn [option_map]; [ | discriminate].
    intros [= <-].
    pose proof (quiz_loop_result _ _ _ _ _ _ _ _ Hin0 Hloop) as Hres.
    destruct Hres as [[q [Hin [Hfree ->]]] | [[-> Hlen] | [e ->]]].
    + left. exists q. auto.
    + right. split; [reflexivity | ].
      simpl in Hlen. now injection Hlen.
    + exfalso.
      exact (quiz_loop_list_no_raise fuel rand previous questions
               (len questions) Hne q0 1 e Hloop).
Qed.

(** Progress of the handler: if some draw yields an unused question, the
    request is answered once the fuel covers that draw. *)
Lemma quiz_answers (rand : nat -> nat) (request : Request) (db : DB)
    (body : value) (previous : list value) (category : value)
    (questions : list Question.t) (n : nat) (q : Question.t) :
  get_json request = Ok body ->
  py_get body "previous_questions" = Ok (VList previous) ->
  py_get body "quiz_category" = Ok category ->
  candidates P category db = Ok questions ->
  draw questions rand n = Ok q ->
  check_if_used (VList previous) q = Ok false ->
  exists r, get_random_quiz_question P (S n) rand request db = Some r.
Proof.
  intros Hbody Hprev Hcat Hcand Hq Hfree.
  assert (Hne : questions <> []) by (intros ->; discriminate).
  destruct (draw_in questions rand 0 Hne) as [q0 [Hq0 _]].
  rewrite (quiz_run (S n) rand request db _ _ _ _ _
             Hbody Hprev Hcat Hcand Hq0).
  destruct n as [ | n].
  - cbn [quiz_loop]. replace q0 with q by congruence.
    rewrite Hfree. cbn. eauto.
  - destruct (quiz_loop_returns rand previous questions (len questions)
                n q0 1 (S (S n)) q) as [r Hr];
      [exact Hq | exact Hfree | lia | ].
    rewrite Hr. cbn. eauto.
Qed.

(** C9.  A POST whose body is no JSON object ([get_json] gave [None], a
    list, a string, a number): in both POST handlers the first [body.get]
    raises [AttributeError] ahead of the [try] block, nothing catches it,
    and the client gets the 500 answer, not 422 or 400.  The store is
    untouched. *)
Theorem post_without_object_body (fuel : nat) (rand : nat -> nat)
    (request : Request) (db : DB) (body : value) :
  get_json request = Ok body ->
  is_dict body = false ->
  create_question P request db = (Raise AttributeError, db)
  /\ get_random_quiz_question P fuel rand request db
     = Some (Raise AttributeError)
  /\ respond (Raise AttributeError) = internal_server_error
  /\ status internal_server_error = 500.
Proof.
  intros Hjson Hbody.
  unfold create_question, get_random_quiz_question.
  rewrite Hjson. unfold bind at 1. unfold lift at 1. cbn [rbind].
  rewrite !(py_get_not_dict _ _ Hbody).
  repeat split.
Qed.

End QuizProperties.

(** A body that does not parse is another matter: [get_json] itself raises
    the HTTP exception 400, ahead of the [try] block as well, and the client
    gets the 400 answer from both handlers. *)
Example post_with_malformed_body :
  let request := {| args_page := None; get_json := abort 400 |} in
  respond (fst (create_question plain_platform request sample_db))
  = bad_request
  /\ option_map respond
       (get_random_quiz_question plain_platform 3 (fun k => k) request
                                 sample_db)
     = Some bad_request.
Proof. split; reflexivity. Qed.

Lemma quiz_question_is_unused_witness :
  get_random_quiz_question plain_platform 5 (fun k => k)
                           (quiz_request [1; 3] 0) sample_db
  = Some (Ok (success_question (sample_question 2 "When did Rome fall?" 1)))
  /\ exists body previous category questions question,
      get_json (quiz_request [1; 3] 0) = Ok body
      /\ py_get body "previous_questions" = Ok previous
      /\ py_get body "quiz_category" = Ok category
      /\ candidates plain_platform category sample_db = Ok questions
      /\ In question questions
      /\ Question.format (sample_question 2 "When did Rome fall?" 1)
         = Question.format question
      /\ check_if_used previous question = Ok false
      /\ (forall l, previous = VList l ->
          ~ In (VInt (Question.id question)) l).
Proof.
  split; [reflexivity | ].
  apply (quiz_question_is_unused plain_platform 5 (fun k => k)
           (quiz_request [1; 3] 0) sample_db
           (success_question (sample_question 2 "When did Rome fall?" 1)));
    reflexivity.
Defined.

Lemma quiz_stops_on_equal_lengths_witness :
  (get_json (quiz_request [1; 2; 3] 0)
   = Ok (VDict [(KStr "previous_questions", VList (map VInt [1; 2; 3]));
                (KStr "quiz_category",
                 VDict [(KStr "type", VStr "click"); (KStr "id", VInt 0)])])
   /\ candidates plain_platform
        (VDict [(KStr "type", VStr "click"); (KStr "id", VInt 0)]) sample_db
      = Ok (db_questions sample_db)
   /\ db_questions sample_db <> [])
  /\ get_random_quiz_question plain_platform 1 (fun k => k)
                              (quiz_request [1; 2; 3] 0) sample_db
     = Some (Ok success_only)
  /\ question_field success_only = None.
Proof.
  split.
  - repeat split; try reflexivity; discriminate.
  - apply (quiz_stops_on_equal_lengths plain_platform 0 (fun k => k)
             (quiz_request [1; 2; 3] 0) sample_db
             (VDict [(KStr "previous_questions",
                      VList (map VInt [1; 2; 3]));
                     (KStr "quiz_category",
                      VDict [(KStr "type", VStr "click");
                             (KStr "id", VInt 0)])])
             (map VInt [1; 2; 3])
             (VDict [(KStr "type", VStr "click"); (KStr "id", VInt 0)])
             (db_questions sample_db));
      try reflexivity; try discriminate.
    eexists. split; reflexivity.
Defined.

Lemma post_without_object_body_witness :
  get_json (plain_request None) = Ok VNone
  /\ is_dict VNone = false
  /\ create_question plain_platform (plain_request None) sample_db
     = (Raise AttributeError, sample_db)
  /\ get_random_quiz_question plain_platform 3 (fun k => k)
                              (plain_request None) sample_db
     = Some (Raise AttributeError)
  /\ respond (Raise AttributeError) = internal_server_error
  /\ status internal_server_error = 500.
Proof.
  split; [reflexivity | ].
  split; [reflexivity | ].
  apply (post_without_object_body plain_platform 3 (fun k => k)
           (plain_request None) sample_db VNone); reflexivity.
Defined.

(** * Further properties of the interface *)

(** ** Pages *)

Lemma firstn_plus {A} (a b : nat) (l : list A) :
  firstn (a + b) l = firstn a l ++ firstn b (skipn a l).
Proof.
  revert l. induction a as [ | a IH]; intros l; [reflexivity | ].
  destruct l as [ | x l]; simpl.
  - now rewrite firstn_nil.
  - now rewrite IH.
Qed.

Lemma paginate_page_request (json : result value) (i : nat)
    (selection : list Question.t) :
  paginate_questions (page_request json (S i)) selection
  = firstn 10 (skipn (10 * i) (map Question.format selection)).
Proof.
  rewrite paginate_questions_window
    by (cbn [page_request args_get_page args_page]; lia).
  unfold page_of_spec. cbn [page_request args_get_page args_page].
  do 2 f_equal. lia.
Qed.

(** X1.  The pages 1 to [k] of a selection, put one after the other, are its
    first [10 * k] formatted items in their order: no item is lost, repeated
    or moved between pages, and the pages up to the one that reaches the end
    make up the whole selection. *)
Theorem pages_cover_selection (json : result value)
    (selection : list Question.t) (k : nat) :
  List.concat (map (fun i => paginate_questions (page_request json i) selection)
              (seq 1 k))
  = firstn (10 * k) (map Question.format selection)
  /\ ((List.length selection <= 10 * k)%nat ->
      List.concat (map (fun i => paginate_questions (page_request json i)
                                               selection)
                  (seq 1 k))
      = map Question.format selection).
Proof.
  assert (Hcat : List.concat (map (fun i => paginate_questions
                                         (page_request json i) selection)
                             (seq 1 k))
                 = firstn (10 * k) (map Question.format selection)).
  { induction k as [ | k IH]; [reflexivity | ].
    rewrite seq_S, map_app, concat_app, IH. cbn [map List.concat Nat.add].
    rewrite paginate_page_request, app_nil_r.
    replace (10 * S k)%nat with (10 * k + 10)%nat by lia.
    now rewrite firstn_plus. }
  split; [exact Hcat | ].
  intros Hlen. rewrite Hcat. apply firstn_all2. now rewrite length_map.
Qed.

Lemma paginate_questions_nil_iff (request : Request)
    (selection : list Question.t) :
  1 <= args_get_page request ->
  paginate_questions request selection = []
  <-> len selection <= (args_get_page request - 1) * 10.
Proof.
  intros Hp. split.
  - rewrite paginate_questions_window by assumption.
    unfold page_of_spec, len. intros Hnil.
    set (off := Z.to_nat ((args_get_page request - 1) * 10)) in *.
    assert (Hlen : List.length
                     (skipn off (map Question.format selection)) = 0%nat).
    { destruct (skipn off (map Question.format selection)); [easy | ].
      discriminate. }
    rewrite length_skipn, length_map in Hlen. subst off. lia.
  - now apply paginate_questions_past_end.
Qed.

(** X2.  For a page numbered from 1, the page is empty exactly when it
    starts at or after the end of the selection; page 0 is empty whatever
    the selection. *)
Theorem paginate_empty_iff (request : Request)
    (selection : list Question.t) :
  1 <= args_get_page request ->
  (paginate_questions request selection = []
   <-> len selection <= (args_get_page request - 1) * 10)
  /\ (forall json, paginate_questions
                     {| args_page := Some 0; get_json := json |} selection
                   = []).
Proof.
  intros Hp. split; [now apply paginate_questions_nil_iff | ].
  intros json.
  unfold paginate_questions, py_slice, slice_index, QUESTIONS_PER_PAGE.
  cbn [args_get_page args_page].
  set (n := Z.of_nat (List.length (map Question.format selection))).
  replace (Z.to_nat _) with 0%nat; [reflexivity | ].
  assert (0 <= n) by (subst n; lia).
  change ((0 - 1) * 10) with (-10). change (-10 + 10) with 0.
  cbn [Z.ltb Z.compare]. lia.
Qed.

Lemma paginate_empty_iff_witness :
  1 <= args_get_page second_page
  /\ (paginate_questions second_page (db_questions sample_db) = []
      <-> len (db_questions sample_db) <= (args_get_page second_page - 1) * 10).
Proof.
  split; [vm_compute; discriminate | ].
  apply (paginate_empty_iff second_page (db_questions sample_db)).
  vm_compute; discriminate.
Defined.

(** X3.  Whatever the page argument, negative ones included, a page is a
    run of consecutive formatted items of the selection: nothing is invented
    and nothing is reordered. *)
Theorem paginate_contiguous (request : Request)
    (selection : list Question.t) :
  exists before after,
    map Question.format selection
    = before ++ paginate_questions request selection ++ after.
Proof.
  unfold paginate_questions, py_slice. cbv zeta.
  match goal with
  | |- context [firstn ?n (skipn ?lo ?items)] =>
      exists (firstn lo items), (skipn n (skipn lo items))
  end.
  now rewrite !firstn_skipn.
Qed.

(** ** The category map *)

Lemma key_eqb_eq (a b : key) : key_eqb a b = true <-> a = b.
Proof.
  destruct a as [m | s], b as [n | t]; simpl; split; intros H;
    try discriminate; try congruence.
  - apply Z.eqb_eq in H. congruence.
  - injection H as ->. apply Z.eqb_refl.
  - apply String.eqb_eq in H. congruence.
  - injection H as ->. apply String.eqb_refl.
Qed.

Lemma key_eqb_refl (k : key) : key_eqb k k = true.
Proof. now apply key_eqb_eq. Qed.

Lemma key_eqb_neq (a b : key) : a <> b -> key_eqb a b = false.
Proof.
  intros Hne. destruct (key_eqb a b) eqn:Heq; [ | reflexivity].
  now apply key_eqb_eq in Heq.
Qed.

Lemma dict_lookup_set_same (d : list (key * value)) (k : key) (v : value) :
  dict_lookup (dict_set d k v) k = Some v.
Proof.
  induction d as [ | [k' v'] d IH]; simpl.
  - now rewrite key_eqb_refl.
  - destruct (key_eqb k' k) eqn:Heq; simpl; now rewrite Heq.
Qed.

Lemma dict_lookup_set_other (d : list (key * value)) (k k' : key)
    (v : value) :
  k <> k' -> dict_lookup (dict_set d k v) k' = dict_lookup d k'.
Proof.
  intros Hne. induction d as [ | [k0 v0] d IH]; simpl.
  - now rewrite key_eqb_neq.
  - destruct (key_eqb k0 k) eqn:Heq; simpl.
    + apply key_eqb_eq in Heq. subst k0. now rewrite key_eqb_neq.
    + now rewrite IH.
Qed.

Lemma dict_set_fresh (d : list (key * value)) (k : key) (v : value) :
  dict_lookup d k = None -> dict_set d k v = d ++ [(k, v)].
Proof.
  induction d as [ | [k' v'] d IH]; simpl; [reflexivity | ].
  destruct (key_eqb k' k); [discriminate | ].
  intros Hnone. now rewrite IH.
Qed.

Lemma build_categories_dict_snoc (cs : list Category.t) (c : Category.t) :
  build_categories_dict (cs ++ [c])
  = dict_set (build_categories_dict cs) (KInt (Category.id c))
             (VStr (Category.type c)).
Proof.
  unfold build_categories_dict. now rewrite fold_left_app.
Qed.

(** Every entry of the map comes from a row. *)
Lemma build_categories_dict_from_rows (cs : list Category.t) (k : key)
    (v : value) :
  dict_lookup (build_categories_dict cs) k = Some v ->
  exists c, In c cs /\ k = KInt (Category.id c)
            /\ v = VStr (Category.type c).
Proof.
  induction cs as [ | c cs IH] using rev_ind; [discriminate | ].
  rewrite build_categories_dict_snoc.
  destruct (key_eqb (KInt (Category.id c)) k) eqn:Heq.
  - apply key_eqb_eq in Heq. subst k. rewrite dict_lookup_set_same.
    intros [= <-]. exists c. split; [ | auto].
    apply in_or_app. right. now left.
  - rewrite dict_lookup_set_other.
    + intros Hk. destruct (IH Hk) as [c' [Hin Hc']].
      exists c'. split; [ | exact Hc']. apply in_or_app. now left.
    + intros <-. now rewrite key_eqb_refl in Heq.
Qed.

(** The last row of an id gives the entry of that id. *)
Lemma build_categories_dict_last_wins (before after : list Category.t)
    (c : Category.t) :
  (forall x, In x after -> Category.id x <> Category.id c) ->
  dict_lookup (build_categories_dict (before ++ c :: after))
              (KInt (Category.id c))
  = Some (VStr (Category.type c)).
Proof.
  induction after as [ | x after IH] using rev_ind; intros Hafter.
  - rewrite build_categories_dict_snoc. apply dict_lookup_set_same.
  - replace (before ++ c :: after ++ [x])
      with ((before ++ c :: after) ++ [x])
      by (now rewrite <- app_assoc).
    rewrite build_categories_dict_snoc, dict_lookup_set_other.
    + apply IH. intros y Hy. apply Hafter, in_or_app. now left.
    + intros [= Heq]. apply (Hafter x); [ | exact Heq].
      apply in_or_app. right. now left.
Qed.

(** With ids that are all different the map is the table, entry by entry. *)
Lemma build_categories_dict_nodup (cs : list Category.t) :
  NoDup (map Category.id cs) ->
  build_categories_dict cs = map category_entry cs.
Proof.
  induction cs as [ | c cs IH] using rev_ind; intros Hnd; [reflexivity | ].
  rewrite map_app in Hnd. cbn [map] in Hnd.
  rewrite build_categories_dict_snoc, map_app.
  rewrite IH by exact (NoDup_app_remove_r _ _ Hnd).
  apply dict_set_fresh.
  destruct (dict_lookup (map category_entry cs) (KInt (Category.id c)))
    as [v | ] eqn:Hlook; [ | reflexivity].
  rewrite <- IH in Hlook by exact (NoDup_app_remove_r _ _ Hnd).
  destruct (build_categories_dict_from_rows _ _ _ Hlook)
    as [c' [Hin [[= Hid] _]]].
  exfalso. apply NoDup_remove_2 with (l' := []) in Hnd.
  apply Hnd. rewrite app_nil_r, Hid. now apply in_map.
Qed.

(** X4.  GET /categories answers 404 exactly when the category table is
    empty.  Otherwise the answer is a success whose [categories] map has an
    entry for the id of every row, with the type of the last row of that id,
    and no entry that does not come from a row. *)
Theorem get_categories_map (db : DB) :
  (db_categories db = [] <-> respond (get_categories db) = not_found)
  /\ (db_categories db <> [] ->
      get_categories db
      = Ok (VDict [(KStr "success", VBool true);
                   (KStr "categories",
                    VDict (build_categories_dict (db_categories db)))])
      /\ (forall before c after,
            db_categories db = before ++ c :: after ->
            (forall x, In x after -> Category.id x <> Category.id c) ->
            dict_lookup (build_categories_dict (db_categories db))
                        (KInt (Category.id c))
            = Some (VStr (Category.type c)))
      /\ (forall k v,
            dict_lookup (build_categories_dict (db_categories db)) k
            = Some v ->
            exists c, In c (db_categories db)
                      /\ k = KInt (Category.id c)
                      /\ v = VStr (Category.type c))).
Proof.
  assert (Hrun : db_categories db <> [] ->
                 get_categories db
                 = Ok (VDict [(KStr "success", VBool true);
                              (KStr "categories",
                               VDict (build_categories_dict
                                        (db_categories db)))])).
  { intros Hne. unfold get_categories.
    pose proof (build_categories_dict_not_nil _ Hne) as Hd.
    destruct (build_categories_dict (db_categories db)); [congruence | ].
    reflexivity. }
  split; [split | ].
  - intros Hnil. unfold get_categories. now rewrite Hnil.
  - intros Hresp.
    destruct (db_categories db) as [ | c cs] eqn:Hcs; [reflexivity | ].
    rewrite Hrun in Hresp by discriminate. discriminate.
  - intros Hne. split; [now apply Hrun | split].
    + intros before c after -> Hafter.
      now apply build_categories_dict_last_wins.
    + intros k v. apply build_categories_dict_from_rows.
Qed.

(** ** The ordered listing *)

Lemma insert_by_id_perm (q : Question.t) (l : list Question.t) :
  Permutation (q :: l) (insert_by_id q l).
Proof.
  induction l as [ | x l IH]; simpl; [reflexivity | ].
  destruct (Question.id q <=? Question.id x); [reflexivity | ].
  rewrite perm_swap. now apply perm_skip.
Qed.

Lemma order_by_id_perm (l : list Question.t) :
  Permutation l (order_by_id l).
Proof.
  induction l as [ | q l IH]; simpl; [reflexivity | ].
  rewrite <- insert_by_id_perm. now apply perm_skip.
Qed.

Lemma order_by_id_length (l : list Question.t) :
  len (order_by_id l) = len l.
Proof.
  unfold len. f_equal. symmetry. apply Permutation_length, order_by_id_perm.
Qed.

Lemma insert_by_id_sorted (q : Question.t) (l : list Question.t) :
  Sorted by_id l -> Sorted by_id (insert_by_id q l).
Proof.
  induction l as [ | x l IH]; intros Hsorted; simpl.
  - repeat constructor.
  - destruct (Z.leb_spec (Question.id q) (Question.id x)) as [Hle | Hgt].
    + constructor; [exact Hsorted | ]. constructor. exact Hle.
    + apply Sorted_inv in Hsorted as [Hl Hhd].
      constructor; [now apply IH | ].
      destruct l as [ | y l]; simpl.
      * constructor. unfold by_id. lia.
      * destruct (Z.leb_spec (Question.id q) (Question.id y)).
        -- constructor. unfold by_id. lia.
        -- constructor. now apply HdRel_inv in Hhd.
Qed.

Lemma order_by_id_sorted (l : list Question.t) :
  Sorted by_id (order_by_id l).
Proof.
  induction l as [ | q l IH]; simpl; [constructor | ].
  now apply insert_by_id_sorted.
Qed.

Lemma Sorted_skipn {A} (R : A -> A -> Prop) (n : nat) (l : list A) :
  Sorted R l -> Sorted R (skipn n l).
Proof.
  revert l. induction n as [ | n IH]; intros l Hl; [exact Hl | ].
  destruct l as [ | x l]; [constructor | ].
  simpl. apply IH. now apply Sorted_inv in Hl.
Qed.

Lemma Sorted_firstn {A} (R : A -> A -> Prop) (n : nat) (l : list A) :
  Sorted R l -> Sorted R (firstn n l).
Proof.
  revert l. induction n as [ | n IH]; intros l Hl; [constructor | ].
  destruct l as [ | x l]; [constructor | ].
  apply Sorted_inv in Hl as [Hl Hhd]. simpl.
  constructor; [now apply IH | ].
  destruct n; [constructor | ].
  destruct l as [ | y l]; [constructor | ].
  simpl. constructor. now apply HdRel_inv in Hhd.
Qed.

Lemma py_slice_map {A B} (f : A -> B) (l : list A) (a b : Z) :
  py_slice (map f l) a b = map f (py_slice l a b).
Proof.
  unfold py_slice. now rewrite length_map, skipn_map, firstn_map.
Qed.

Lemma py_slice_incl {A} (l : list A) (a b : Z) (x : A) :
  In x (py_slice l a b) -> In x l.
Proof.
  unfold py_slice. cbv zeta.
  match goal with
  | |- In x (firstn ?n (skipn ?lo l)) -> _ =>
      intros Hin;
      rewrite <- (firstn_skipn lo l); apply in_or_app; right;
      rewrite <- (firstn_skipn n (skipn lo l)); apply in_or_app; now left
  end.
Qed.

(** X5.  With category ids that are all different, the answer of
    GET /questions to a page that is not empty carries the category table
    as its [categories] map, row by row, and the id and type of the last row
    of the table as [current_category], whatever the questions of the page
    are. *)
Theorem get_questions_current_category (request : Request) (db : DB)
    (cs : list Category.t) (c : Category.t) :
  db_categories db = cs ++ [c] ->
  NoDup (category_ids db) ->
  paginate_questions request (order_by_id (db_questions db)) <> [] ->
  get_questions request db =
  Ok (VDict [(KStr "success", VBool true);
             (KStr "questions",
              VList (paginate_questions request
                       (order_by_id (db_questions db))));
             (KStr "total_questions", VInt (len (db_questions db)));
             (KStr "categories", VDict (map category_entry (cs ++ [c])));
             (KStr "current_category",
              VTuple [VInt (Category.id c); VStr (Category.type c)])]).
Proof.
  intros Hcat Hnd Hpage. unfold category_ids in Hnd.
  unfold get_questions. rewrite Hcat in *.
  rewrite build_categories_dict_nodup by exact Hnd.
  unfold items, py_last. rewrite !map_app, rev_app_distr. cbn [map rev app].
  cbn [rbind category_entry key_value].
  destruct (paginate_questions request (order_by_id (db_questions db)));
    [congruence | reflexivity].
Qed.

Lemma get_questions_current_category_witness :
  db_categories sample_db = [Category.mk 1 "Science"] ++ [Category.mk 2 "Art"]
  /\ NoDup (category_ids sample_db)
  /\ field "current_category"
        match get_questions (plain_request None) sample_db with
        | Ok response => response
        | Raise _ => VNone
        end
     = Some (VTuple [VInt 2; VStr "Art"]).
Proof.
  assert (Hnd : NoDup (category_ids sample_db)).
  { repeat constructor; simpl; intuition discriminate. }
  split; [reflexivity | split; [exact Hnd | ]].
  rewrite (get_questions_current_category (plain_request None) sample_db
             [Category.mk 1 "Science"] (Category.mk 2 "Art")
             eq_refl Hnd); [reflexivity | discriminate].
Defined.

(** X6.  With at least one category row and a page numbered from 1,
    GET /questions answers 404 exactly when the page starts at or after the
    end of the question table, and 200 otherwise. *)
Theorem get_questions_not_found_iff (request : Request) (db : DB) :
  db_categories db <> [] ->
  1 <= args_get_page request ->
  (respond (get_questions request db) = not_found
   <-> len (db_questions db) <= (args_get_page request - 1) * 10)
  /\ ((args_get_page request - 1) * 10 < len (db_questions db) ->
      status (respond (get_questions request db)) = 200).
Proof.
  intros Hcat Hp.
  destruct (get_questions_with_categories request db Hcat) as [Hnil Hcons].
  pose proof (paginate_questions_nil_iff request
                (order_by_id (db_questions db)) Hp) as Hiff.
  rewrite order_by_id_length in Hiff.
  assert (Hok : (args_get_page request - 1) * 10 < len (db_questions db) ->
                status (respond (get_questions request db)) = 200).
  { intros Hlt. destruct Hcons as [current Hrun].
    - intros Hempty. apply Hiff in Hempty. lia.
    - now rewrite Hrun. }
  split; [split | exact Hok].
  - intros Hresp.
    destruct (Z_le_gt_dec (len (db_questions db))
                          ((args_get_page request - 1) * 10)) as [Hle | Hgt];
      [exact Hle | ].
    assert (Hlt : (args_get_page request - 1) * 10 < len (db_questions db))
      by lia.
    apply Hok in Hlt. rewrite Hresp in Hlt. discriminate.
  - intros Hle. apply Hnil. now apply Hiff.
Qed.

Lemma get_questions_not_found_iff_witness :
  db_categories sample_db <> []
  /\ 1 <= args_get_page second_page
  /\ respond (get_questions second_page sample_db) = not_found.
Proof.
  split; [discriminate | split; [vm_compute; discriminate | ]].
  apply (get_questions_not_found_iff second_page sample_db);
    [discriminate | vm_compute; discriminate | vm_compute; discriminate].
Defined.

(** X7.  The questions of an answer of GET /questions are the formatted
    forms of rows of the question table in ascending order of their ids, and
    [total_questions] is the size of the whole table. *)
Theorem get_questions_ascending (request : Request) (db : DB)
    (response : value) :
  get_questions request db = Ok response ->
  exists window,
    field "questions" response
    = Some (VList (map Question.format window))
    /\ Sorted by_id window
    /\ (forall q, In q window -> In q (db_questions db))
    /\ field "total_questions" response
       = Some (VInt (len (db_questions db))).
Proof.
  unfold get_questions.
  destruct (py_last _) as [current | e]; cbn [rbind]; [ | discriminate].
  destruct (len _ =? 0); [discriminate | ].
  intros [= <-].
  unfold paginate_questions. cbv zeta. rewrite py_slice_map.
  eexists. split; [reflexivity | split; [ | split]].
  - unfold py_slice. apply Sorted_firstn, Sorted_skipn, order_by_id_sorted.
  - intros q Hq. apply py_slice_incl in Hq.
    eapply Permutation_in; [ | exact Hq].
    symmetry. apply order_by_id_perm.
  - reflexivity.
Qed.

Lemma get_questions_ascending_witness :
  exists window,
    field "questions"
      (VDict [(KStr "success", VBool true);
              (KStr "questions",
               VList (paginate_questions (plain_request None)
                        (order_by_id (db_questions sample_db))));
              (KStr "total_questions", VInt 3);
              (KStr "categories",
               VDict (build_categories_dict (db_categories sample_db)));
              (KStr "current_category", VTuple [VInt 2; VStr "Art"])])
    = Some (VList (map Question.format window))
    /\ Sorted by_id window
    /\ (forall q, In q window -> In q (db_questions sample_db))
    /\ field "total_questions"
         (VDict [(KStr "success", VBool true);
                 (KStr "questions",
                  VList (paginate_questions (plain_request None)
                           (order_by_id (db_questions sample_db))));
                 (KStr "total_questions", VInt 3);
                 (KStr "categories",
                  VDict (build_categories_dict (db_categories sample_db)));
                 (KStr "current_category", VTuple [VInt 2; VStr "Art"])])
       = Some (VInt (len (db_questions sample_db))).
Proof.
  apply (get_questions_ascending (plain_request None) sample_db).
  reflexivity.
Defined.

(** ** Writing handlers and the store *)

(** The store after a delete of [question_id] that goes through. *)
Lemma delete_question_store (request : Request) (question_id : Z) (db : DB) :
  (status (respond (fst (delete_question request question_id db))) <> 200
   /\ snd (delete_question request question_id db) = db)
  \/ (status (respond (fst (delete_question request question_id db))) = 200
      /\ snd (delete_question request question_id db)
         = {| db_questions :=
                filter (fun x => negb (Question.id x =? question_id))
                       (db_questions db);
              db_categories := db_categories db;
              next_id := next_id db;
              commit_fails := commit_fails db |}).
Proof.
  unfold delete_question, try_except_M, bind, query, lift, Question_delete.
  destruct (filter _ (db_questions db)) as [ | question [ | q2 rows]] eqn:Hf;
    cbn [one_or_none].
  - left. split; [discriminate | reflexivity].
  - assert (Hid : Question.id question = question_id).
    { assert (Hin : In question
                       (filter (fun q => Question.id q =? question_id)
                               (db_questions db)))
        by (rewrite Hf; now left).
      apply filter_In in Hin as [_ Hin]. now apply Z.eqb_eq in Hin. }
    destruct (commit_fails db); cbn.
    + left. split; [discriminate | reflexivity].
    + right. split; [reflexivity | ]. now rewrite Hid.
  - left. split; [discriminate | reflexivity].
Qed.

(** X8.  A DELETE for the id of exactly one question, with a commit that
    goes through, is answered with that id, the page of the remaining
    questions and a total one less than before; the store then holds the
    other rows in their order and no row of that id, and a second DELETE for
    the same id is answered 422. *)
Theorem delete_question_removes (request : Request) (question_id : Z)
    (db : DB) (question : Question.t) :
  filter (fun q => Question.id q =? question_id) (db_questions db)
  = [question] ->
  commit_fails db = false ->
  let remaining :=
    filter (fun x => negb (Question.id x =? question_id))
           (db_questions db) in
  let db' := {| db_questions := remaining;
                db_categories := db_categories db;
                next_id := next_id db;
                commit_fails := commit_fails db |} in
  delete_question request question_id db
  = (Ok (VDict [(KStr "success", VBool true);
                (KStr "deleted", VInt question_id);
                (KStr "questions",
                 VList (paginate_questions request (order_by_id remaining)));
                (KStr "total_questions",
                 VInt (len (db_questions db) - 1))]), db')
  /\ ~ In question_id (question_ids db')
  /\ (forall request',
        respond (fst (delete_question request' question_id db'))
        = unprocessable).
Proof.
  intros Hone Hcommit remaining db'.
  assert (Hid : Question.id question = question_id).
  { assert (Hin : In question
                     (filter (fun q => Question.id q =? question_id)
                             (db_questions db)))
      by (rewrite Hone; now left).
    apply filter_In in Hin as [_ Hin]. now apply Z.eqb_eq in Hin. }
  assert (Hlen : len remaining = len (db_questions db) - 1).
  { pose proof (filter_length (fun q => Question.id q =? question_id)
                              (db_questions db)) as Hsum.
    rewrite Hone in Hsum. unfold len, remaining. simpl in Hsum. lia. }
  assert (Hgone : ~ In question_id (question_ids db')).
  { unfold question_ids, db', remaining. cbn [db_questions].
    intros Hin. apply in_map_iff in Hin as [q [Hq Hin]].
    apply filter_In in Hin as [_ Hin]. rewrite Hq, Z.eqb_refl in Hin.
    discriminate. }
  split; [ | split; [exact Hgone | ]].
  - unfold delete_question, try_except_M, bind, query, lift, Question_delete,
      ret.
    rewrite Hone. cbn [one_or_none]. subst db'.
    destruct (commit_fails db); [discriminate | ].
    cbn [fst snd db_questions]. rewrite Hid. fold remaining.
    now rewrite Hlen.
  - intros request'. rewrite delete_question_missing; [reflexivity | ].
    destruct (filter _ (db_questions db')) as [ | q rows] eqn:Hf;
      [reflexivity | ].
    exfalso. apply Hgone.
    assert (Hin : In q (filter (fun q => Question.id q =? question_id)
                               (db_questions db')))
      by (rewrite Hf; now left).
    apply filter_In in Hin as [Hin Hq]. apply Z.eqb_eq in Hq.
    rewrite <- Hq. now apply in_map.
Qed.

Lemma delete_question_removes_witness :
  filter (fun q => Question.id q =? 2) (db_questions sample_db)
  = [sample_question 2 "When did Rome fall?" 1]
  /\ commit_fails sample_db = false
  /\ field "total_questions"
       match fst (delete_question (plain_request None) 2 sample_db) with
       | Ok response => response
       | Raise _ => VNone
       end
     = Some (VInt 2).
Proof.
  split; [reflexivity | split; [reflexivity | ]].
  rewrite (proj1 (delete_question_removes (plain_request None) 2 sample_db
                    (sample_question 2 "When did Rome fall?" 1)
                    eq_refl eq_refl)).
  reflexivity.
Defined.

(** X9.  DELETE /questions/<id> writes only when it answers 200: after any
    other answer the store is the one before.  In no case does it touch the
    category table or the next id, and it never adds a question. *)
Theorem delete_question_writes_on_success_only (request : Request)
    (question_id : Z) (db : DB) :
  let outcome := delete_question request question_id db in
  (status (respond (fst outcome)) <> 200 -> snd outcome = db)
  /\ db_categories (snd outcome) = db_categories db
  /\ next_id (snd outcome) = next_id db
  /\ (forall q, In q (db_questions (snd outcome)) ->
                In q (db_questions db)).
Proof.
  cbv zeta.
  destruct (delete_question_store request question_id db)
    as [[Hstatus ->] | [Hstatus ->]].
  - repeat split; auto.
  - repeat split; auto.
    + intros Hne. now destruct Hne.
    + cbn [db_questions]. intros q Hq. now apply filter_In in Hq.
Qed.

Section CreateProperties.

Variable P : Platform.

(** The handler once the five fields of an object body are read. *)
Lemma create_question_fields (request : Request) (db : DB)
    (d : list (key * value)) :
  get_json request = Ok (VDict d) ->
  exists new_question new_answer new_category new_difficulty search,
    py_get (VDict d) "question" = Ok new_question
    /\ py_get (VDict d) "answer" = Ok new_answer
    /\ py_get (VDict d) "category" = Ok new_category
    /\ py_get (VDict d) "difficulty" = Ok new_difficulty
    /\ py_get (VDict d) "searchTerm" = Ok search
    /\ create_question P request db =
       try_except_M
         (if truthy search then
            fun db =>
              if len (search_questions P search db) =? 0 then
                (Ok (VDict [(KStr "success", VBool true);
                            (KStr "questions", VList []);
                            (KStr "total_questions", VInt 0)]), db)
              else
                (Ok (VDict [(KStr "success", VBool true);
                            (KStr "questions",
                             VList (paginate_questions request
                                      (search_questions P search db)));
                            (KStr "total_questions",
                             VInt (len (search_questions P search db)))]),
                 db)
          else
            fun db =>
              match Question_insert P new_question new_answer new_category
                                    new_difficulty db with
              | (Ok question, db') =>
                  (Ok (VDict [(KStr "success", VBool true);
                              (KStr "created", VInt (Question.id question));
                              (KStr "question_created",
                               of_text (Question.question question));
                              (KStr "questions",
                               VList (paginate_questions request
                                        (order_by_id (db_questions db'))));
                              (KStr "total_questions",
                               VInt (len (db_questions db')))]), db')
              | (Raise e, db') => (Raise e, db')
              end)
         (fun e => lift (abort 422)) db.
Proof.
  intros Hbody.
  destruct (py_get_dict d "question") as [v1 H1].
  destruct (py_get_dict d "answer") as [v2 H2].
  destruct (py_get_dict d "category") as [v3 H3].
  destruct (py_get_dict d "difficulty") as [v4 H4].
  destruct (py_get_dict d "searchTerm") as [v5 H5].
  exists v1, v2, v3, v4, v5. repeat (split; [assumption | ]).
  unfold create_question. rewrite Hbody.
  unfold bind at 1. unfold lift at 1.
  rewrite H1, H2, H3, H4, H5.
  unfold bind, lift, try_except_M, query, ret.
  destruct (truthy v5).
  - destruct (len (search_questions P v5 db) =? 0); reflexivity.
  - destruct (Question_insert P v1 v2 v3 v4 db) as [[question | e] db'];
      reflexivity.
Qed.

(** An insertion either fails and leaves the store, or appends one row with
    the next id. *)
Lemma Question_insert_store (question answer category difficulty : value)
    (db : DB) :
  (exists e, Question_insert P question answer category difficulty db
             = (Raise e, db))
  \/ (exists row,
        Question.id row = next_id db
        /\ Question_insert P question answer category difficulty db
           = (Ok row,
              {| db_questions := db_questions db ++ [row];
                 db_categories := db_categories db;
                 next_id := next_id db + 1;
                 commit_fails := commit_fails db |})).
Proof.
  unfold Question_insert.
  destruct (column_text P question) as [q | e]; cbn [rbind]; [ | eauto].
  destruct (column_text P answer) as [a | e]; cbn [rbind]; [ | eauto].
  destruct (column_int P category) as [c | e]; cbn [rbind]; [ | eauto].
  destruct (column_int P difficulty) as [d | e]; cbn [rbind]; [ | eauto].
  destruct (commit_fails db); [eauto | ].
  right. eexists. split; [ | reflexivity]. reflexivity.
Qed.

(** The store after a POST /questions: the one before, or, when the answer
    is 200 on the creating branch, the one before with one more row. *)
Lemma create_question_store (request : Request) (db : DB) :
  snd (create_question P request db) = db
  \/ (exists row,
        Question.id row = next_id db
        /\ status (respond (fst (create_question P request db))) = 200
        /\ snd (create_question P request db)
           = {| db_questions := db_questions db ++ [row];
                db_categories := db_categories db;
                next_id := next_id db + 1;
                commit_fails := commit_fails db |}).
Proof.
  destruct (get_json request) as [body | e] eqn:Hbody.
  - destruct (is_dict body) eqn:Hdict.
    + destruct body; try discriminate.
      destruct (create_question_fields request db d Hbody)
        as [v1 [v2 [v3 [v4 [v5 [_ [_ [_ [_ [_ ->]]]]]]]]]].
      unfold try_except_M, lift.
      destruct (truthy v5).
      * destruct (_ =? 0); now left.
      * destruct (Question_insert_store v1 v2 v3 v4 db)
          as [[e ->] | [row [Hid ->]]]; [now left | ].
        right. exists row. repeat split. exact Hid.
    + left. unfold create_question. rewrite Hbody.
      unfold bind at 1. unfold lift at 1.
      now rewrite (py_get_not_dict _ _ Hdict).
  - left. unfold create_question. now rewrite Hbody.
Qed.

(** X10.  A POST /questions with an object body, a [searchTerm] that is
    absent or false as a condition, four values the engine takes for their
    columns and a commit that goes through stores one new row with the next
    id after the rows there were, and answers with that id, the stored
    question text, the page of the new listing and a total one more than
    before. *)
Theorem create_question_inserts (request : Request) (db : DB)
    (d : list (key * value))
    (new_question new_answer new_category new_difficulty search : value)
    (q a : option string) (c dd : option Z) :
  get_json request = Ok (VDict d) ->
  py_get (VDict d) "question" = Ok new_question ->
  py_get (VDict d) "answer" = Ok new_answer ->
  py_get (VDict d) "category" = Ok new_category ->
  py_get (VDict d) "difficulty" = Ok new_difficulty ->
  py_get (VDict d) "searchTerm" = Ok search ->
  truthy search = false ->
  column_text P new_question = Ok q ->
  column_text P new_answer = Ok a ->
  column_int P new_category = Ok c ->
  column_int P new_difficulty = Ok dd ->
  commit_fails db = false ->
  let row := Question.mk (next_id db) q a c dd in
  create_question P request db
  = (Ok (VDict [(KStr "success", VBool true);
                (KStr "created", VInt (next_id db));
                (KStr "question_created", of_text q);
                (KStr "questions",
                 VList (paginate_questions request
                          (order_by_id (db_questions db ++ [row]))));
                (KStr "total_questions",
                 VInt (len (db_questions db) + 1))]),
     {| db_questions := db_questions db ++ [row];
        db_categories := db_categories db;
        next_id := next_id db + 1;
        commit_fails := commit_fails db |}).
Proof.
  intros Hbody H1 H2 H3 H4 H5 Hfalse Hq Ha Hc Hd Hcommit row.
  destruct (create_question_fields request db d Hbody)
    as [v1 [v2 [v3 [v4 [v5 [E1 [E2 [E3 [E4 [E5 ->]]]]]]]]]].
  replace v1 with new_question by congruence.
  replace v2 with new_answer by congruence.
  replace v3 with new_category by congruence.
  replace v4 with new_difficulty by congruence.
  replace v5 with search by congruence.
  rewrite Hfalse. unfold try_except_M, Question_insert.
  rewrite Hq, Ha, Hc, Hd. cbn [rbind].
  destruct (commit_fails db); [discriminate | ].
  cbn [Question.id Question.question db_questions]. fold row.
  replace (len (db_questions db ++ [row])) with (len (db_questions db) + 1);
    [reflexivity | ].
  unfold len. rewrite length_app. simpl. lia.
Qed.

(** X11.  A POST /questions with an object body is answered 200 or 422 and
    nothing else.  It writes only when it answers 200, and then only by
    adding a row: it never removes a question and never touches the category
    table. *)
Theorem create_question_answers (request : Request) (db : DB)
    (d : list (key * value)) :
  get_json request = Ok (VDict d) ->
  let outcome := create_question P request db in
  (status (respond (fst outcome)) = 200
   \/ respond (fst outcome) = unprocessable)
  /\ (status (respond (fst outcome)) <> 200 -> snd outcome = db)
  /\ db_categories (snd outcome) = db_categories db
  /\ (forall q, In q (db_questions db) ->
                In q (db_questions (snd outcome))).
Proof.
  intros Hbody. cbv zeta.
  assert (Hstatus : status (respond (fst (create_question P request db)))
                    = 200
                    \/ respond (fst (create_question P request db))
                       = unprocessable).
  { destruct (create_question_fields request db d Hbody)
      as [v1 [v2 [v3 [v4 [v5 [_ [_ [_ [_ [_ ->]]]]]]]]]].
    unfold try_except_M, lift.
    destruct (truthy v5).
    - destruct (_ =? 0); now left.
    - destruct (Question_insert_store v1 v2 v3 v4 db)
        as [[e ->] | [row [Hid ->]]]; [now right | now left]. }
  split; [exact Hstatus | ].
  destruct (create_question_store request db)
    as [-> | [row [Hid [H200 ->]]]].
  - repeat split; auto.
  - repeat split; auto.
    + intros Hne. now destruct Hne.
    + cbn [db_questions]. intros q Hq. apply in_or_app. now left.
Qed.

(** X12.  A POST /questions whose [searchTerm] is true as a condition and
    selects at least one question is answered with the page of the selected
    questions and, as [total_questions], the number of all selected
    questions; every selected question is a row of the table whose text
    matches the pattern; the store is left as it is. *)
Theorem search_with_matches (request : Request) (db : DB)
    (d : list (key * value)) (search : value) :
  get_json request = Ok (VDict d) ->
  py_get (VDict d) "searchTerm" = Ok search ->
  truthy search = true ->
  search_questions P search db <> [] ->
  create_question P request db
  = (Ok (VDict [(KStr "success", VBool true);
                (KStr "questions",
                 VList (paginate_questions request
                          (search_questions P search db)));
                (KStr "total_questions",
                 VInt (len (search_questions P search db)))]), db)
  /\ (forall q, In q (search_questions P search db) ->
        In q (db_questions db)
        /\ exists text,
             Question.question q = Some text
             /\ ilike ("%" ++ py_str P search ++ "%") text = true).
Proof.
  intros Hbody Hsearch Htrue Hsome. split.
  - destruct (create_question_fields request db d Hbody)
      as [v1 [v2 [v3 [v4 [v5 [_ [_ [_ [_ [E5 ->]]]]]]]]]].
    replace v5 with search by congruence.
    rewrite Htrue. unfold try_except_M.
    destruct (search_questions P search db) as [ | q rows];
      [congruence | reflexivity].
  - intros q Hq. unfold search_questions in Hq.
    apply filter_In in Hq as [Hin Hmatch]. split.
    + eapply Permutation_in; [ | exact Hin].
      symmetry. apply order_by_id_perm.
    + unfold question_matches in Hmatch.
      destruct (Question.question q) as [text | ]; [eauto | discriminate].
Qed.

End CreateProperties.

Lemma create_question_inserts_witness :
  field "created"
    match fst (create_question plain_platform
                 {| args_page := None;
                    get_json := Ok (VDict [(KStr "question", VStr "Why?");
                                           (KStr "answer", VStr "So.");
                                           (KStr "category", VInt 1);
                                           (KStr "difficulty", VInt 2)]) |}
                 sample_db) with
    | Ok response => response
    | Raise _ => VNone
    end
  = Some (VInt 4).
Proof.
  rewrite (create_question_inserts plain_platform
             {| args_page := None;
                get_json := Ok (VDict [(KStr "question", VStr "Why?");
                                       (KStr "answer", VStr "So.");
                                       (KStr "category", VInt 1);
                                       (KStr "difficulty", VInt 2)]) |}
             sample_db
             [(KStr "question", VStr "Why?"); (KStr "answer", VStr "So.");
              (KStr "category", VInt 1); (KStr "difficulty", VInt 2)]
             (VStr "Why?") (VStr "So.") (VInt 1) (VInt 2) VNone
             (Some "Why?"%string) (Some "So."%string) (Some 1) (Some 2)
             eq_refl eq_refl eq_refl eq_refl eq_refl eq_refl eq_refl
             eq_refl eq_refl eq_refl eq_refl eq_refl).
  reflexivity.
Defined.

Lemma create_question_answers_witness :
  status (respond (fst (create_question plain_platform
                          (search_request None "Rome") sample_db))) = 200
  \/ respond (fst (create_question plain_platform
                     (search_request None "Rome") sample_db))
     = unprocessable.
Proof.
  exact (proj1 (create_question_answers plain_platform
                  (search_request None "Rome") sample_db
                  [(KStr "searchTerm", VStr "Rome")] eq_refl)).
Defined.

Lemma search_with_matches_witness :
  create_question plain_platform (search_request None "rome") sample_db
  = (Ok (VDict [(KStr "success", VBool true);
                (KStr "questions",
                 VList (paginate_questions (search_request None "rome")
                          (search_questions plain_platform (VStr "rome")
                                            sample_db)));
                (KStr "total_questions",
                 VInt (len (search_questions plain_platform (VStr "rome")
                                             sample_db)))]), sample_db).
Proof.
  apply (search_with_matches plain_platform (search_request None "rome")
           sample_db [(KStr "searchTerm", VStr "rome")] (VStr "rome"));
    try reflexivity.
  vm_compute; discriminate.
Defined.

(** Dropping rows from the question table keeps its ids different. *)
Lemma question_ids_filter (keep : Question.t -> bool)
    (rows : list Question.t) :
  NoDup (map Question.id rows) ->
  NoDup (map Question.id (filter keep rows)).
Proof.
  induction rows as [ | q rows IH]; intros Hrows; cbn [filter map] in *;
    [constructor | ].
  apply NoDup_cons_iff in Hrows as [Hq Hrows].
  specialize (IH Hrows).
  destruct (keep q); [ | exact IH].
  cbn [map]. constructor; [ | exact IH].
  rewrite in_map_iff. intros [q' [Hsame Hkept]].
  apply filter_In in Hkept as [Hkept _].
  apply Hq. rewrite <- Hsame. now apply in_map.
Qed.

(** X13.  The two writing handlers keep the ids of the question table in
    order: if no id occurs twice and every id is below the next id before a
    DELETE or a POST /questions, the same holds after it, whatever the
    request and its outcome. *)
Theorem ids_stay_fresh (P : Platform) (request : Request) (question_id : Z)
    (db : DB) :
  ids_fresh db ->
  ids_fresh (snd (delete_question request question_id db))
  /\ ids_fresh (snd (create_question P request db)).
Proof.
  intros [Hnd Hlt]. split.
  - destruct (delete_question_store request question_id db)
      as [[_ ->] | [_ ->]]; [now split | ].
    unfold ids_fresh, question_ids in *. cbn [db_questions next_id]. split.
    + now apply question_ids_filter.
    + apply Forall_forall. intros i Hi.
      apply in_map_iff in Hi as [q [Hq Hin]].
      apply filter_In in Hin as [Hin _].
      rewrite Forall_forall in Hlt. apply Hlt. rewrite <- Hq.
      now apply in_map.
  - destruct (create_question_store P request db)
      as [-> | [row [Hid [_ ->]]]]; [now split | ].
    unfold ids_fresh, question_ids in *. cbn [db_questions next_id].
    rewrite map_app. cbn [map]. rewrite Hid.
    rewrite Forall_forall in Hlt. split.
    + apply NoDup_app; [exact Hnd | repeat constructor; intros [] | ].
      intros i Hi [<- | []]. specialize (Hlt _ Hi). lia.
    + apply Forall_forall. intros i Hi.
      apply in_app_or in Hi as [Hi | [<- | []]]; [ | lia].
      specialize (Hlt _ Hi). lia.
Qed.

Lemma ids_stay_fresh_witness :
  ids_fresh sample_db
  /\ ids_fresh (snd (delete_question
                       {| args_page := None;
                          get_json := Ok (VDict [(KStr "question",
                                                  VStr "Why?")]) |}
                       2 sample_db))
  /\ ids_fresh (snd (create_question plain_platform
                       {| args_page := None;
                          get_json := Ok (VDict [(KStr "question",
                                                  VStr "Why?")]) |}
                       sample_db)).
Proof.
  assert (Hfresh : ids_fresh sample_db).
  { split.
    - repeat constructor; simpl; intuition discriminate.
    - repeat constructor. }
  split; [exact Hfresh | ].
  apply (ids_stay_fresh plain_platform
           {| args_page := None;
              get_json := Ok (VDict [(KStr "question", VStr "Why?")]) |}
           2 sample_db Hfresh).
Defined.

(** ** Questions of a category *)

Lemma filter_id_absent (id : Z) (cs : list Category.t) :
  ~ In id (map Category.id cs) ->
  filter (fun c => Category.id c =? id) cs = [].
Proof.
  induction cs as [ | c cs IH]; simpl; intros Hnot; [reflexivity | ].
  destruct (Z.eqb_spec (Category.id c) id) as [Heq | _].
  - destruct Hnot. now left.
  - apply IH. intros Hin. apply Hnot. now right.
Qed.

Lemma filter_id_unique (id : Z) (cs : list Category.t) :
  NoDup (map Category.id cs) ->
  In id (map Category.id cs) ->
  exists c, filter (fun c => Category.id c =? id) cs = [c].
Proof.
  induction cs as [ | c cs IH]; simpl; intros Hnd Hin; [easy | ].
  apply NoDup_cons_iff in Hnd as [Hc Hnd].
  destruct (Z.eqb_spec (Category.id c) id) as [Heq | Hne].
  - exists c. f_equal. apply filter_id_absent. now rewrite <- Heq.
  - destruct Hin as [Hin | Hin]; [contradiction | ]. now apply IH.
Qed.

(** X14.  With category ids that are all different,
    GET /categories/<id>/questions is answered 200 when the id is in the
    category table and 400 when it is not; 404 and 500 do not occur. *)
Theorem by_category_status (request : Request) (category_id : Z) (db : DB) :
  NoDup (category_ids db) ->
  (In category_id (category_ids db) ->
   status (respond (get_questions_by_category request category_id db)) = 200)
  /\ (~ In category_id (category_ids db) ->
      respond (get_questions_by_category request category_id db)
      = bad_request).
Proof.
  intros Hnd. unfold category_ids in *. split; intros Hin.
  - destruct (filter_id_unique category_id _ Hnd Hin) as [c Hc].
    unfold get_questions_by_category. now rewrite Hc.
  - unfold get_questions_by_category.
    now rewrite (filter_id_absent category_id _ Hin).
Qed.

Lemma by_category_status_witness :
  NoDup (category_ids sample_db)
  /\ ~ In 9999 (category_ids sample_db)
  /\ respond (get_questions_by_category (plain_request None) 9999 sample_db)
     = bad_request.
Proof.
  assert (Hnd : NoDup (category_ids sample_db))
    by (repeat constructor; simpl; intuition discriminate).
  assert (Hnot : ~ In 9999 (category_ids sample_db))
    by (simpl; intuition discriminate).
  split; [exact Hnd | split; [exact Hnot | ]].
  exact (proj2 (by_category_status (plain_request None) 9999 sample_db Hnd)
               Hnot).
Defined.

(** X15.  Every question in an answer of GET /categories/<id>/questions is
    the formatted form of a row of the question table whose category is
    [id]. *)
Theorem by_category_questions_belong (request : Request) (category_id : Z)
    (db : DB) (response : value) (page : list value) :
  get_questions_by_category request category_id db = Ok response ->
  field "questions" response = Some (VList page) ->
  forall x, In x page ->
    exists q, In q (db_questions db)
              /\ Question.category q = Some category_id
              /\ x = Question.format q.
Proof.
  unfold get_questions_by_category.
  destruct (filter _ (db_categories db)) as [ | c [ | c2 cs]] eqn:Hf;
    cbn [one_or_none rbind]; try discriminate.
  assert (Hid : Category.id c = category_id).
  { assert (Hin : In c (filter (fun c => Category.id c =? category_id)
                               (db_categories db)))
      by (rewrite Hf; now left).
    apply filter_In in Hin as [_ Hin]. now apply Z.eqb_eq in Hin. }
  intros [= <-]. cbn. intros [= <-] x Hx.
  unfold paginate_questions in Hx. cbv zeta in Hx.
  rewrite py_slice_map in Hx. apply in_map_iff in Hx as [q [Hq Hin]].
  apply py_slice_incl in Hin. apply filter_In in Hin as [Hin Hcat].
  exists q. split; [exact Hin | split; [ | now symmetry]].
  unfold has_category in Hcat. rewrite Hid in Hcat.
  destruct (Question.category q) as [m | ]; [ | discriminate].
  apply Z.eqb_eq in Hcat. now subst m.
Qed.

Lemma by_category_questions_belong_witness :
  field "questions"
    match get_questions_by_category (plain_request None) 2 sample_db with
    | Ok response => response
    | Raise _ => VNone
    end
  = Some (VList [Question.format (sample_question 1 "Who wrote Hamlet?" 2)])
  /\ exists q, In q (db_questions sample_db)
               /\ Question.category q = Some 2
               /\ Question.format (sample_question 1 "Who wrote Hamlet?" 2)
                  = Question.format q.
Proof.
  split; [reflexivity | ].
  apply (by_category_questions_belong (plain_request None) 2 sample_db
           (VDict [(KStr "success", VBool true);
                   (KStr "questions",
                    VList [Question.format
                             (sample_question 1 "Who wrote Hamlet?" 2)]);
                   (KStr "total_questions", VInt 3);
                   (KStr "current_category", VStr "Art")])
           [Question.format (sample_question 1 "Who wrote Hamlet?" 2)]
           eq_refl eq_refl).
  now left.
Defined.

(** ** What the reading handlers can answer *)

Lemma error_answer_envelope (r : Response) :
  error_answer r ->
  field "success" (body r) = Some (VBool false)
  /\ field "error" (body r) = Some (VInt (status r))
  /\ exists message, field "message" (body r) = Some (VStr message).
Proof.
  intros [-> | [-> | [-> | ->]]]; repeat split; eexists; reflexivity.
Qed.

(** X16.  The answers of the three reading handlers: GET /categories gives
    200 or 404; GET /questions gives 200, 404 or 500;
    GET /categories/<id>/questions gives 200, 400 or 500.  Every answer
    other than 200 is one of the JSON error answers, whose [success] is
    false and whose [error] is the status. *)
Theorem reading_handlers_answers (request : Request) (category_id : Z)
    (db : DB) :
  (status (respond (get_categories db)) = 200
   \/ respond (get_categories db) = not_found)
  /\ (status (respond (get_questions request db)) = 200
      \/ respond (get_questions request db) = not_found
      \/ respond (get_questions request db) = internal_server_error)
  /\ (status (respond (get_questions_by_category request category_id db))
      = 200
      \/ respond (get_questions_by_category request category_id db)
         = bad_request
      \/ respond (get_questions_by_category request category_id db)
         = internal_server_error)
  /\ (forall r,
        r = respond (get_categories db)
        \/ r = respond (get_questions request db)
        \/ r = respond (get_questions_by_category request category_id db) ->
        status r <> 200 ->
        field "success" (body r) = Some (VBool false)
        /\ field "error" (body r) = Some (VInt (status r))).
Proof.
  assert (H1 : status (respond (get_categories db)) = 200
               \/ respond (get_categories db) = not_found).
  { unfold get_categories. destruct (len _ =? 0); [now right | now left]. }
  assert (H2 : status (respond (get_questions request db)) = 200
               \/ respond (get_questions request db) = not_found
               \/ respond (get_questions request db)
                  = internal_server_error).
  { unfold get_questions, py_last.
    destruct (rev _) as [ | current rest]; cbn [rbind]; [now right; right | ].
    destruct (len _ =? 0); [now right; left | now left]. }
  assert (H3 : status (respond (get_questions_by_category request
                                  category_id db)) = 200
               \/ respond (get_questions_by_category request category_id db)
                  = bad_request
               \/ respond (get_questions_by_category request category_id db)
                  = internal_server_error).
  { unfold get_questions_by_category.
    destruct (filter _ (db_categories db)) as [ | c [ | c2 cs]];
      cbn [one_or_none rbind]; [now right; left | now left | now right; right]. }
  repeat (split; [assumption | ]).
  intros r Hr Hstatus.
  assert (Herr : error_answer r).
  { unfold error_answer.
    destruct Hr as [-> | [-> | ->]].
    - destruct H1 as [H | ->]; [contradiction | auto].
    - destruct H2 as [H | [-> | ->]]; [contradiction | auto | auto].
    - destruct H3 as [H | [-> | ->]]; [contradiction | auto | auto]. }
  destruct (error_answer_envelope r Herr) as [Hs [He _]]. now split.
Qed.

(** ** More on the quiz selector *)

Section QuizMore.

Variable P : Platform.

(** What stands behind an answer of POST /quizzes that is no error. *)
Lemma quiz_answer_inv (fuel : nat) (rand : nat -> nat) (request : Request)
    (db : DB) (response : value) :
  get_random_quiz_question P fuel rand request db = Some (Ok response) ->
  exists body previous category questions q0,
    get_json request = Ok body
    /\ py_get body "previous_questions" = Ok previous
    /\ py_get body "quiz_category" = Ok category
    /\ candidates P category db = Ok questions
    /\ In q0 questions
    /\ quiz_loop fuel rand previous questions (len questions) q0 1
       = Some (Ok response).
Proof.
  unfold get_random_quiz_question, quiz_try.
  destruct (get_json request) as [body | e] eqn:Hbody; cbn [rbind];
    [ | discriminate].
  destruct (py_get body "previous_questions") as [previous | e] eqn:Hprev;
    cbn [rbind]; [ | discriminate].
  destruct (py_get body "quiz_category") as [category | e] eqn:Hcat;
    cbn [rbind]; [ | discriminate].
  destruct (candidates P category db) as [questions | e] eqn:Hcand;
    cbn [rbind]; [ | discriminate].
  destruct (get_random_question questions (rand O)) as [q0 | e] eqn:Hq0;
    cbn [rbind]; [ | discriminate].
  destruct (quiz_loop fuel rand previous questions (len questions) q0 1)
    as [[v | e] | ] eqn:Hloop; cbn; try discriminate.
  intros [= ->].
  exists body, previous, category, questions, q0.
  repeat (split; [assumption || reflexivity | ]).
  split; [exact (draw_ok_in questions rand 0 q0 Hq0) | exact Hloop].
Qed.

(** X17.  A POST /quizzes with an object body is answered 200 or 400
    whenever it is answered: no exception of the [try] block reaches the
    client as a 500. *)
Theorem quiz_answers_200_or_400 (fuel : nat) (rand : nat -> nat)
    (request : Request) (db : DB) (d : list (key * value))
    (r : result value) :
  get_json request = Ok (VDict d) ->
  get_random_quiz_question P fuel rand request db = Some r ->
  status (respond r) = 200 \/ respond r = bad_request.
Proof.
  intros Hbody. unfold get_random_quiz_question. rewrite Hbody.
  cbn [rbind].
  destruct (py_get_dict d "previous_questions") as [previous ->].
  destruct (py_get_dict d "quiz_category") as [category ->].
  cbn [rbind].
  destruct (quiz_try P fuel rand previous category db) as [[v | e] | ];
    cbn; intros [= <-]; [now left | now right].
Qed.

(** X18.  When the candidate set cannot be formed (no [quiz_category], a
    category without [id], a value the engine refuses) or is empty, the
    request is answered 400 at once, whatever the fuel, the draws and
    [previous_questions]. *)
Theorem quiz_without_candidates (fuel : nat) (rand : nat -> nat)
    (request : Request) (db : DB) (d : list (key * value))
    (category : value) :
  get_json request = Ok (VDict d) ->
  py_get (VDict d) "quiz_category" = Ok category ->
  (forall q questions, candidates P category db <> Ok (q :: questions)) ->
  get_random_quiz_question P fuel rand request db
  = Some (Raise (HTTPException 400))
  /\ respond (Raise (HTTPException 400)) = bad_request.
Proof.
  intros Hbody Hcat Hnone. split; [ | reflexivity].
  unfold get_random_quiz_question, quiz_try. rewrite Hbody. cbn [rbind].
  destruct (py_get_dict d "previous_questions") as [previous ->].
  rewrite Hcat. cbn [rbind].
  destruct (candidates P category db) as [[ | q questions] | e];
    cbn; try reflexivity.
  now destruct (Hnone q questions).
Qed.

(** X19.  With a category id that is an integer other than 0, a question in
    the answer of POST /quizzes is a row of the question table of that
    category. *)
Theorem quiz_question_of_category (fuel : nat) (rand : nat -> nat)
    (request : Request) (db : DB) (body category response qv : value)
    (n : Z) :
  get_json request = Ok body ->
  py_get body "quiz_category" = Ok category ->
  py_getitem category "id" = Ok (VInt n) ->
  n <> 0 ->
  get_random_quiz_question P fuel rand request db = Some (Ok response) ->
  question_field response = Some qv ->
  exists q, In q (db_questions db)
            /\ Question.category q = Some n
            /\ qv = Question.format q.
Proof.
  intros Hbody Hcat Hid Hn Hrun Hfield.
  destruct (quiz_answer_inv _ _ _ _ _ Hrun)
    as [body' [previous [category' [questions [q0 [Hb [_ [Hc
          [Hcand [Hin0 Hloop]]]]]]]]]].
  assert (body' = body) by congruence. subst body'.
  assert (category' = category) by congruence. subst category'.
  unfold candidates in Hcand. rewrite Hid in Hcand. cbn in Hcand.
  destruct (Z.eqb_spec n 0) as [? | _]; [contradiction | ].
  injection Hcand as <-.
  apply quiz_loop_result in Hloop; [ | exact Hin0].
  destruct Hloop as [[q [Hin [_ Heq]]] | [[Heq _] | [e Heq]]].
  - injection Heq as ->. cbn in Hfield. injection Hfield as <-.
    apply filter_In in Hin as [Hin Hhas]. exists q.
    split; [exact Hin | split; [ | reflexivity]].
    unfold has_category in Hhas.
    destruct (Question.category q) as [m | ]; [ | discriminate].
    apply Z.eqb_eq in Hhas. now subst m.
  - injection Heq as ->. discriminate.
  - discriminate.
Qed.

(** X20.  When every candidate is used and [previous_questions] is a list
    whose length differs from the number of candidates (an id twice, an id
    of another category), the loop never ends: whatever the draws and the
    fuel, the request is still unanswered. *)
Theorem quiz_never_answers (fuel : nat) (rand : nat -> nat)
    (request : Request) (db : DB) (body : value) (previous : list value)
    (category : value) (questions : list Question.t) :
  get_json request = Ok body ->
  py_get body "previous_questions" = Ok (VList previous) ->
  py_get body "quiz_category" = Ok category ->
  candidates P category db = Ok questions ->
  questions <> [] ->
  (forall q, In q questions -> check_if_used (VList previous) q = Ok true) ->
  len previous <> len questions ->
  get_random_quiz_question P fuel rand request db = None.
Proof.
  intros Hbody Hprev Hcat Hcand Hne Hused Hlen.
  destruct (draw_in questions rand 0 Hne) as [q0 [Hq0 Hin0]].
  rewrite (quiz_run P fuel rand request db _ _ _ _ _
                    Hbody Hprev Hcat Hcand Hq0).
  rewrite (quiz_loop_runs rand (VList previous) questions (len questions)
                          (len previous)); auto.
  intros j. destruct (draw_in questions rand j Hne) as [q [Hq Hin]].
  exists q. auto.
Qed.

End QuizMore.

Lemma quiz_answers_200_or_400_witness :
  get_json (quiz_request [3] 7) =
  Ok (VDict [(KStr "previous_questions", VList (map VInt [3]));
             (KStr "quiz_category",
              VDict [(KStr "type", VStr "click"); (KStr "id", VInt 7)])])
  /\ (status (respond (Raise (HTTPException 400))) = 200
      \/ respond (Raise (HTTPException 400)) = bad_request).
Proof.
  split; [reflexivity | ].
  apply (quiz_answers_200_or_400 plain_platform 5 (fun k => k)
           (quiz_request [3] 7) sample_db
           [(KStr "previous_questions", VList (map VInt [3]));
            (KStr "quiz_category",
             VDict [(KStr "type", VStr "click"); (KStr "id", VInt 7)])]);
    reflexivity.
Defined.

Lemma quiz_without_candidates_witness :
  get_random_quiz_question plain_platform 0 (fun k => k)
    {| args_page := None;
       get_json := Ok (VDict [(KStr "previous_questions", VList [])]) |}
    sample_db
  = Some (Raise (HTTPException 400))
  /\ respond (Raise (HTTPException 400)) = bad_request.
Proof.
  apply (quiz_without_candidates plain_platform 0 (fun k => k)
           {| args_page := None;
              get_json := Ok (VDict [(KStr "previous_questions",
                                      VList [])]) |}
           sample_db [(KStr "previous_questions", VList [])] VNone);
    try reflexivity.
  intros q questions. discriminate.
Defined.

Lemma quiz_question_of_category_witness :
  exists q, In q (db_questions sample_db)
            /\ Question.category q = Some 1
            /\ Question.format (sample_question 3 "What is a monad?" 1)
               = Question.format q.
Proof.
  apply (quiz_question_of_category plain_platform 5 (fun k => k)
           (quiz_request [] 1) sample_db
           (VDict [(KStr "previous_questions", VList []);
                   (KStr "quiz_category",
                    VDict [(KStr "type", VStr "click");
                           (KStr "id", VInt 1)])])
           (VDict [(KStr "type", VStr "click"); (KStr "id", VInt 1)])
           (success_question (sample_question 3 "What is a monad?" 1))
           (Question.format (sample_question 3 "What is a monad?" 1)) 1);
    try reflexivity.
  discriminate.
Defined.

Lemma quiz_never_answers_witness :
  len (map VInt [1; 2; 3; 3]) <> len (db_questions sample_db)
  /\ get_random_quiz_question plain_platform 50 (fun k => k)
       (quiz_request [1; 2; 3; 3] 0) sample_db = None.
Proof.
  split; [discriminate | ].
  apply (quiz_never_answers plain_platform 50 (fun k => k)
           (quiz_request [1; 2; 3; 3] 0) sample_db
           (VDict [(KStr "previous_questions",
                    VList (map VInt [1; 2; 3; 3]));
                   (KStr "quiz_category",
                    VDict [(KStr "type", VStr "click");
                           (KStr "id", VInt 0)])])
           (map VInt [1; 2; 3; 3])
           (VDict [(KStr "type", VStr "click"); (KStr "id", VInt 0)])
           (db_questions sample_db));
    try reflexivity; try discriminate.
  intros q [<- | [<- | [<- | []]]]; reflexivity.
Defined.

(** ** A question created and deleted again *)

Lemma filter_all {A} (p : A -> bool) (l : list A) :
  (forall x, In x l -> p x = true) -> filter p l = l.
Proof.
  induction l as [ | x l IH]; simpl; intros Hall; [reflexivity | ].
  rewrite (Hall x) by now left.
  f_equal. apply IH. intros y Hy. apply Hall. now right.
Qed.

Lemma filter_none {A} (p : A -> bool) (l : list A) :
  (forall x, In x l -> p x = false) -> filter p l = [].
Proof.
  induction l as [ | x l IH]; simpl; intros Hall; [reflexivity | ].
  rewrite (Hall x) by now left.
  apply IH. intros y Hy. apply Hall. now right.
Qed.

Lemma delete_question_ok (request : Request) (question_id : Z) (db : DB)
    (question : Question.t) :
  filter (fun q => Question.id q =? question_id) (db_questions db)
  = [question] ->
  commit_fails db = false ->
  status (respond (fst (delete_question request question_id db))) = 200.
Proof.
  intros Hone Hcommit.
  unfold delete_question, try_except_M, bind, query, lift, Question_delete.
  rewrite Hone. cbn [one_or_none]. now rewrite Hcommit.
Qed.

(** X21.  Starting from a question table whose ids are below the next id:
    when a POST /questions has added a row, a DELETE for the next id of the
    store before (the id in [created]) is answered 200 and gives back the
    question table there was before the POST. *)
Theorem create_then_delete (P : Platform) (request request' : Request)
    (db : DB) :
  ids_fresh db ->
  commit_fails db = false ->
  let db' := snd (create_question P request db) in
  db_questions db' <> db_questions db ->
  status (respond (fst (delete_question request' (next_id db) db'))) = 200
  /\ db_questions (snd (delete_question request' (next_id db) db'))
     = db_questions db.
Proof.
  intros [_ Hlt] Hcommit db' Hadded. subst db'.
  destruct (create_question_store P request db)
    as [Hsame | [row [Hid [_ Hstore]]]].
  { rewrite Hsame in Hadded. now destruct Hadded. }
  rewrite Hstore in *. clear Hstore Hadded.
  unfold question_ids in Hlt. rewrite Forall_forall in Hlt.
  assert (Hold : forall q, In q (db_questions db) ->
                           (Question.id q =? next_id db) = false).
  { intros q Hq. apply Z.eqb_neq.
    assert (Question.id q < next_id db) by (apply Hlt; now apply in_map).
    lia. }
  set (db1 := {| db_questions := db_questions db ++ [row];
                 db_categories := db_categories db;
                 next_id := next_id db + 1;
                 commit_fails := commit_fails db |}).
  assert (Hone : filter (fun q => Question.id q =? next_id db)
                        (db_questions db1) = [row]).
  { cbn [db1 db_questions]. rewrite filter_app.
    rewrite (filter_none _ _ Hold). cbn [filter app].
    now rewrite Hid, Z.eqb_refl. }
  assert (H200 : status (respond (fst (delete_question request'
                                         (next_id db) db1))) = 200)
    by (apply (delete_question_ok _ _ _ row Hone); exact Hcommit).
  split; [exact H200 | ].
  destruct (delete_question_store request' (next_id db) db1)
    as [[Hne _] | [_ ->]]; [contradiction | ].
  cbn [db1 db_questions]. rewrite filter_app. cbn [filter].
  rewrite Hid, Z.eqb_refl. cbn [negb]. rewrite app_nil_r.
  apply filter_all. intros q Hq. now rewrite (Hold q Hq).
Qed.

Lemma create_then_delete_witness :
  ids_fresh sample_db
  /\ commit_fails sample_db = false
  /\ db_questions
       (snd (delete_question (plain_request None) (next_id sample_db)
               (snd (create_question plain_platform
                       {| args_page := None;
                          get_json := Ok (VDict [(KStr "question",
                                                  VStr "Why?")]) |}
                       sample_db))))
     = db_questions sample_db.
Proof.
  assert (Hfresh : ids_fresh sample_db).
  { split.
    - repeat constructor; simpl; intuition discriminate.
    - repeat constructor. }
  split; [exact Hfresh | split; [reflexivity | ]].
  apply (create_then_delete plain_platform
           {| args_page := None;
              get_json := Ok (VDict [(KStr "question", VStr "Why?")]) |}
           (plain_request None) sample_db Hfresh eq_refl).
  vm_compute. intros H.
  apply (f_equal (@List.length Question.t)) in H. discriminate.
Defined.

(** ** The search and the substring match *)



